(** * Verifiable Agent Log: the audit script and the soul-verification producer

    A shallow embedding of two scripts of the OpenClaw skill:

    - [val-verify.js]: [fetchAllMessages], [verify] and, of
      [displaySummary], the record total, the lines of the verification
      result and what makes the function throw before it prints them;
    - [val-soul.js]: [hashFile], [getLastSoulHash] and [main].

    JavaScript values are embedded as [Js.JsVal]; objects are finite maps
    from property names to values.  The issue list of [verify] is a list of
    strings, as in the script: the severity of an issue is the prefix of
    its text. *)

From stdpp Require Import gmap strings list pretty sorting.

Set Warnings "-register-all".
Open Scope Z_scope.

(** ** JavaScript values *)

Module Js.

(** The values [JSON.parse] produces.  Numbers are the integers, below
    [2 ^ 53] in absolute value, where the [+ 1], the [===] and the decimal
    text of a double are those of the integer; the sequence numbers of a
    topic are such numbers.  A payload that holds a fractional or a
    larger number is outside this model. *)
Inductive JsVal : Type :=
| JUndef
| JNull
| JBool (b : bool)
| JNum (z : Z)
| JStr (s : string)
| JArr (l : list JsVal)
| JObj (m : gmap string JsVal).

(** The double quote, for the template literals that contain one. *)
Definition dq : string := String (Ascii.ascii_of_nat 34) EmptyString.

(** [ToBoolean]: what [if (v)], [v ? a : b], [v || w] and [filter] test. *)
Definition truthy (v : JsVal) : bool :=
  match v with
  | JUndef | JNull => false
  | JBool b => b
  | JNum z => negb (z =? 0)
  | JStr s => negb (String.eqb s EmptyString)
  | JArr _ | JObj _ => true
  end.

(** [v === "lit"] for a string literal. *)
Definition strictEqStr (v : JsVal) (lit : string) : bool :=
  match v with
  | JStr s => String.eqb s lit
  | _ => false
  end.

(** [v === false]. *)
Definition strictEqFalse (v : JsVal) : bool :=
  match v with
  | JBool false => true
  | _ => false
  end.

(** [v.k] for a property name [k] that no prototype defines on the value:
    an own property of an object, [undefined] on every other value that
    has properties.  (The own properties of a string or an array are its
    indices, never one of the names read below.) *)
Definition prop (v : JsVal) (k : string) : JsVal :=
  match v with
  | JObj m => default JUndef (m !! k)
  | _ => JUndef
  end.

(** [v?.k]: [undefined] on [null] and [undefined], [v.k] otherwise. *)
Definition optProp (v : JsVal) (k : string) : JsVal :=
  match v with
  | JUndef | JNull => JUndef
  | _ => prop v k
  end.

(** [v?.match === false].  On a string, [match] is the method of
    [String.prototype], a function and so not [false]; no other
    prototype defines the name. *)
Definition optMatchIsFalse (v : JsVal) : bool :=
  match v with
  | JStr _ => false
  | _ => strictEqFalse (optProp v "match")
  end.

(** [`${v}`], the [ToString] of a template literal, on the values where
    it returns ([ToStringThrows] below tells the others).  An array is
    joined with commas, [null] and [undefined] elements rendering as
    nothing. *)
Fixpoint ToString (v : JsVal) : string :=
  match v with
  | JUndef => "undefined"
  | JNull => "null"
  | JBool true => "true"
  | JBool false => "false"
  | JNum z => pretty z
  | JStr s => s
  | JArr l =>
      (fix join (l : list JsVal) : string :=
         let elem x := match x with
                       | JUndef | JNull => EmptyString
                       | _ => ToString x
                       end in
         match l with
         | [] => EmptyString
         | [x] => elem x
         | x :: rest => elem x +:+ "," +:+ join rest
         end) l
  | JObj _ => "[object Object]"
  end.

(** [ToString] throws a TypeError on an object with an own property
    [toString]: no value of JSON is callable, and the inherited [valueOf]
    that is tried next returns the object itself.  An array is joined from
    the [ToString] of its elements and throws when one of them does.  The
    conversion of a value to a property key throws on the same values. *)
Fixpoint ToStringThrows (v : JsVal) : bool :=
  match v with
  | JObj m => bool_decide (is_Some (m !! "toString"))
  | JArr l => existsb ToStringThrows l
  | _ => false
  end.

(** The numbers of the value are below [2 ^ 53] in absolute value, and
    [ToString] is their decimal text. *)
Fixpoint inRange (v : JsVal) : bool :=
  match v with
  | JNum z => Z.abs z <? 2 ^ 53
  | JArr l => forallb inRange l
  | _ => true
  end.

(** The value is a string: it has the methods [padEnd] and [slice] of
    [String.prototype]. *)
Definition isText (v : JsVal) : bool :=
  match v with
  | JStr _ => true
  | _ => false
  end.

(** [(v || "lit").padEnd(n)] throws a TypeError: [v] is truthy and no
    string, so that it has no callable [padEnd]. *)
Definition padEndThrows (v : JsVal) : bool := truthy v && negb (isText v).

(** The text is ASCII: each character is one byte and one code unit. *)
Fixpoint isAscii (s : string) : bool :=
  match s with
  | EmptyString => true
  | String c rest => (Ascii.N_of_ascii c <? 128)%N && isAscii rest
  end.

(** [a < b] on two strings.  The script compares code units, [String.ltb]
    bytes: the two agree on ASCII text, which the consensus timestamps of
    the mirror node are. *)
Definition strLt (a b : string) : bool := String.ltb a b.

(** [s.padEnd(n)] and [s.padStart(n)] with the default filler, a space. *)
Definition spaces (n : nat) : string :=
  Nat.iter n (String.append " ") EmptyString.

Definition padEnd (s : string) (n : nat) : string :=
  s +:+ spaces (n - String.length s).

Definition padStart (s : string) (n : nat) : string :=
  spaces (n - String.length s) +:+ s.

End Js.

Import Js.

(** ** val-verify.js *)

Module Verify.

(** A message object of the [messages] array, with the properties that
    [verify] and [displaySummary] read.  [seq] is an integer and
    [consensusTs] a string, as the mirror node's [sequence_number] and
    [consensus_timestamp] are; a payload can replace both, and the
    message objects on which it puts another kind of value are not of
    this type.  The other properties come out of the decoded payload and
    are arbitrary JSON, [undefined] when the payload has no such
    property. *)
Record Message : Type := {
  seq : Z;
  consensusTs : string;
  type : JsVal;
  _parseError : JsVal;
  data : JsVal;
  ts : JsVal
}.

(** *** fetchAllMessages *)

(** What [JSON.parse(Buffer.from(msg.message, "base64").toString("utf-8"))]
    does on a payload: it throws, or it returns a value. *)
Inductive Payload : Type :=
| Unparseable
| Parsed (content : JsVal).

(** One entry of [resp.messages]. *)
Record MirrorMsg : Type := {
  sequence_number : Z;
  consensus_timestamp : string;
  message : Payload
}.

(** An own property of a value, as the spread [...content] copies it:
    only an object has named own properties. *)
Definition own (content : JsVal) (k : string) : option JsVal :=
  match content with
  | JObj m => m !! k
  | _ => None
  end.

(** [{ seq: msg.sequence_number, consensusTs: msg.consensus_timestamp,
    ...content }]: the spread comes last, so an own property of the
    content replaces the mirror node's value.  A replacement that is not
    an integer (for [seq]) or not a string (for [consensusTs]) leaves the
    typed [Message]: the result is [None] there. *)
Definition spreadSeq (n : Z) (content : JsVal) : option Z :=
  match own content "seq" with
  | None => Some n
  | Some (JNum z) => Some z
  | Some _ => None
  end.

Definition spreadTs (t : string) (content : JsVal) : option string :=
  match own content "consensusTs" with
  | None => Some t
  | Some (JStr s) => Some s
  | Some _ => None
  end.

(** The body of [for (const msg of resp.messages)]: the [try] branch for
    a payload that parses, the [catch] branch for one that does not. *)
Definition decodeMessage (msg : MirrorMsg) : option Message :=
  match message msg with
  | Parsed content =>
      s ← spreadSeq (sequence_number msg) content;
      t ← spreadTs (consensus_timestamp msg) content;
      Some {| seq := s;
              consensusTs := t;
              type := default JUndef (own content "type");
              _parseError := default JUndef (own content "_parseError");
              data := default JUndef (own content "data");
              ts := default JUndef (own content "ts") |}
  | Unparseable =>
      Some {| seq := sequence_number msg;
              consensusTs := consensus_timestamp msg;
              type := JUndef;
              _parseError := JBool true;
              data := JUndef;
              ts := JUndef |}
  end.

(** The pages the mirror node serves, in the order the loop requests
    them.  [LastPage]: the response has no [links.next].  [NextPage]: it
    has one, and the rest is what the mirror serves from that link on.
    [None] for the entries is a response without a [messages] array. *)
Inductive Pages : Type :=
| LastPage (entries : option (list MirrorMsg))
| NextPage (entries : option (list MirrorMsg)) (rest : Pages).

Definition pushPage (messages : list Message) (entries : list MirrorMsg)
  : option (list Message) :=
  decoded ← mapM decodeMessage entries;
  Some (messages ++ decoded).

(** [while (url) { ... }], with [messages] passed along. *)
Fixpoint fetchLoop (pages : Pages) (messages : list Message)
  : option (list Message) :=
  match pages with
  | LastPage None | NextPage None _ => Some messages
  | LastPage (Some []) | NextPage (Some []) _ => Some messages
  | LastPage (Some entries) => pushPage messages entries
  | NextPage (Some entries) rest =>
      messages' ← pushPage messages entries;
      fetchLoop rest messages'
  end.

Definition fetchAllMessages (pages : Pages) : option (list Message) :=
  fetchLoop pages [].

(** The entries the loop reads before it stops: those of every page up
    to the first one without entries or without a link to a next page. *)
Fixpoint entriesRead (pages : Pages) : list MirrorMsg :=
  match pages with
  | LastPage None | NextPage None _ => []
  | LastPage (Some entries) => entries
  | NextPage (Some []) _ => []
  | NextPage (Some entries) rest => entries ++ entriesRead rest
  end.

(** *** verify *)

(** [issues.push(s)]. *)
Definition push (issues : list string) (s : string) : list string :=
  issues ++ [s].

(** [for (let i = 1; i < n; i++) body], threading the issue list. *)
Definition forFrom1 (n : nat) (body : nat → list string → list string)
  (issues : list string) : list string :=
  fold_left (fun acc i => body i acc) (List.seq 1 (n - 1)) issues.

Definition noMessages : string := "FAIL: No messages found on topic".

Definition firstIssue (m : Message) : string :=
  "FAIL: First message is " +:+ dq +:+ ToString (type m) +:+ dq
    +:+ ", expected " +:+ dq +:+ "agent.create" +:+ dq.

Definition gapIssue (prev cur : Message) : string :=
  "FAIL: Sequence gap between " +:+ pretty (seq prev)
    +:+ " and " +:+ pretty (seq cur).

Definition orderIssue (cur : Message) : string :=
  "FAIL: Timestamp ordering violated at seq " +:+ pretty (seq cur).

Definition parseIssue (n : nat) : string :=
  "WARN: " +:+ pretty n +:+ " message(s) could not be parsed as JSON".

Definition soulIssue (m : Message) : string :=
  "INFO: Soul hash changed at seq " +:+ pretty (seq m)
    +:+ " (identity modified)".

(** The body of a loop over adjacent messages: [messages[i]] and
    [messages[i - 1]] both exist for [1 <= i < messages.length]. *)
Definition atPair (messages : list Message) (i : nat)
  (body : Message → Message → list string → list string)
  (issues : list string) : list string :=
  match messages !! (i - 1)%nat, messages !! i with
  | Some prev, Some cur => body prev cur issues
  | _, _ => issues
  end.

Definition atIndex (messages : list Message) (i : nat)
  (body : Message → list string → list string)
  (issues : list string) : list string :=
  match messages !! i with
  | Some cur => body cur issues
  | None => issues
  end.

(** The issue list that [verify] builds.  The template literal of the
    first check is taken to return; where it throws, which
    [verifyThrows] below tells, the call has no result, see
    [verifyResult]. *)
Definition verify (messages : list Message) : list string :=
  let issues := [] in
  if (length messages =? 0)%nat then push issues noMessages
  else
    (* Check first message is agent.create *)
    let issues :=
      atIndex messages 0 (fun first issues =>
        if negb (strictEqStr (type first) "agent.create")
        then push issues (firstIssue first) else issues) issues in
    (* Check sequence continuity *)
    let issues :=
      forFrom1 (length messages) (fun i =>
        atPair messages i (fun prev cur issues =>
          if negb (seq cur =? seq prev + 1)
          then push issues (gapIssue prev cur) else issues)) issues in
    (* Check timestamp ordering *)
    let issues :=
      forFrom1 (length messages) (fun i =>
        atPair messages i (fun prev cur issues =>
          if strLt (consensusTs cur) (consensusTs prev)
          then push issues (orderIssue cur) else issues)) issues in
    (* Check for parse errors *)
    let parseErrors := List.filter (fun m => truthy (_parseError m)) messages in
    let issues :=
      if (0 <? length parseErrors)%nat
      then push issues (parseIssue (length parseErrors)) else issues in
    (* Check soul hash consistency *)
    let soulVerifies :=
      List.filter (fun m => strictEqStr (type m) "soul.verify") messages in
    let issues :=
      forFrom1 (length soulVerifies) (fun i =>
        atIndex soulVerifies i (fun cur issues =>
          if optMatchIsFalse (data cur)
          then push issues (soulIssue cur) else issues)) issues in
    issues.

(** *** displaySummary *)

(** The [TOTAL] line of the attestation summary. *)
Definition totalLine (messages : list Message) : string :=
  "  " +:+ padEnd "TOTAL" 20 +:+ " " +:+ padStart (pretty (length messages)) 6.

Definition passedLine : string :=
  "  ✅ Verification: PASSED — Log integrity intact".

Definition issuesHeading : string := "  ⚠️  Verification Issues:".

(** The lines printed under [// Verification results]. *)
Definition verificationLines (issues : list string) : list string :=
  if (length issues =? 0)%nat then [passedLine]
  else issuesHeading :: map (fun issue => "     " +:+ issue) issues.

(** *** Reading an issue list *)

(** The severity an issue carries is the prefix of its text. *)
Inductive Severity : Type := Fail | Warn | Info.

Definition severity (issue : string) : option Severity :=
  if String.prefix "FAIL: " issue then Some Fail
  else if String.prefix "WARN: " issue then Some Warn
  else if String.prefix "INFO: " issue then Some Info
  else None.

Definition hasSeverity (s : Severity) (issue : string) : bool :=
  match severity issue, s with
  | Some Fail, Fail | Some Warn, Warn | Some Info, Info => true
  | _, _ => false
  end.

Definition failIssues (issues : list string) : list string :=
  List.filter (hasSeverity Fail) issues.

Definition warnIssues (issues : list string) : list string :=
  List.filter (hasSeverity Warn) issues.

Definition infoIssues (issues : list string) : list string :=
  List.filter (hasSeverity Info) issues.

(** The two kinds of Fail issue that come from the loops over adjacent
    messages. *)
Definition gapIssues (issues : list string) : list string :=
  List.filter (String.prefix "FAIL: Sequence gap between ") issues.

Definition orderIssues (issues : list string) : list string :=
  List.filter (String.prefix "FAIL: Timestamp ordering violated at seq ")
    issues.

(** The Fail issues that [verify] has: the one of the empty log and those
    of the three checks on the first message, the sequence and the
    timestamps. *)
Definition failKind (issue : string) : bool :=
  String.eqb issue noMessages
  || String.prefix "FAIL: First message is " issue
  || String.prefix "FAIL: Sequence gap between " issue
  || String.prefix "FAIL: Timestamp ordering violated at seq " issue.

(** The summary shows the PASSED line. *)
Definition showsPassed (issues : list string) : Prop :=
  verificationLines issues = [passedLine].

(** *** Reading a snapshot *)

(** The adjacent pairs [(messages[i - 1], messages[i])] of a snapshot. *)
Fixpoint adjacent (messages : list Message) : list (Message * Message) :=
  match messages with
  | prev :: (cur :: _) as rest => (prev, cur) :: adjacent rest
  | _ => []
  end.

(** The text of a consensus timestamp, [seconds.nanoseconds]: the
    seconds since the epoch in ten digits, as they are from 2001 to 2286,
    and the nanoseconds in nine.  [fixed w n] writes [n], below [10 ^ w],
    in [w] digits. *)
Definition digit (d : N) : Ascii.ascii := Ascii.ascii_of_N (48 + d).

Fixpoint fixed (w : nat) (n : N) : string :=
  match w with
  | O => EmptyString
  | S w' =>
      String (digit (n / 10 ^ N.of_nat w')) (fixed w' (n mod 10 ^ N.of_nat w'))
  end.

Definition timestampText (seconds nanos : N) : string :=
  fixed 10 seconds +:+ "." +:+ fixed 9 nanos.

(** The sequence numbers are [s0, s0 + 1, ..., s0 + n - 1]. *)
Definition consecutiveFrom (s0 : Z) (messages : list Message) : Prop :=
  map seq messages
  = map (fun i => s0 + Z.of_nat i) (List.seq 0 (length messages)).

Definition isCreate (m : Message) : bool :=
  strictEqStr (type m) "agent.create".

Definition isSoulVerify (m : Message) : bool :=
  strictEqStr (type m) "soul.verify".

Definition flagged (m : Message) : bool := truthy (_parseError m).

Definition withData (d : JsVal) (m : Message) : Message :=
  {| seq := seq m; consensusTs := consensusTs m; type := type m;
     _parseError := _parseError m; data := d; ts := ts m |}.

Definition withType (t : JsVal) (m : Message) : Message :=
  {| seq := seq m; consensusTs := consensusTs m; type := t;
     _parseError := _parseError m; data := data m; ts := ts m |}.

(** What each check adds to the issue list: for an adjacent pair the
    sequence check and the timestamp check, for the whole snapshot the
    parse check, for a [soul.verify] record after the first the soul
    check. *)
Definition gapOf (pair : Message * Message) : list string :=
  let (prev, cur) := pair in
  if negb (seq cur =? seq prev + 1) then [gapIssue prev cur] else [].

Definition orderOf (pair : Message * Message) : list string :=
  let (prev, cur) := pair in
  if strLt (consensusTs cur) (consensusTs prev) then [orderIssue cur] else [].

Definition parseOf (messages : list Message) : list string :=
  let n := length (List.filter flagged messages) in
  if (0 <? n)%nat then [parseIssue n] else [].

Definition soulOf (m : Message) : list string :=
  if optMatchIsFalse (data m) then [soulIssue m] else [].

(** What [verify] reads of a payload: whether [data?.match === false]. *)
Definition matchOnly (d : JsVal) : JsVal :=
  if optMatchIsFalse d then JObj {["match" := JBool false]} else JUndef.

(** A record with all erased that [verify] reads of no record: [ts] is
    dropped, of [_parseError] the truth value is kept, and of the payload
    the answer to [data?.match === false], every field of the table of the
    specification going.  [eraseKind] erases the kind as well, but for
    whether it is [soul.verify]. *)
Definition eraseData (m : Message) : Message :=
  {| seq := seq m; consensusTs := consensusTs m; type := type m;
     _parseError := JBool (flagged m); data := matchOnly (data m);
     ts := JUndef |}.

Definition eraseKind (m : Message) : Message :=
  withType (if isSoulVerify m then JStr "soul.verify" else JUndef)
    (eraseData m).

(** The payload of the record is an object that declares this identity
    hash and this [match] field. *)
Definition declares (m : Message) (hash : string) (matched : bool) : Prop :=
  ∃ fields, data m = JObj fields
            ∧ fields !! "soul_hash" = Some (JStr hash)
            ∧ fields !! "match" = Some (JBool matched).

(** The snapshot with the payload of its first [soul.verify] record
    replaced. *)
Fixpoint withFirstSoulData (d : JsVal) (messages : list Message)
  : list Message :=
  match messages with
  | [] => []
  | m :: rest =>
      if isSoulVerify m then withData d m :: rest
      else m :: withFirstSoulData d rest
  end.

(** The snapshot with everything erased that no check reads: the kind of
    every record but the first, where only [soul.verify] is told from the
    rest, and the payload of every record, where only a [match] field
    that is [false] is told from the rest. *)
Definition eraseUnchecked (messages : list Message) : list Message :=
  match messages with
  | [] => []
  | first :: rest => eraseData first :: map eraseKind rest
  end.

(** Two records that agree on all that the checks over the whole
    snapshot read: sequence number, timestamp and parse flag. *)
Definition sameChecked (m m' : Message) : Prop :=
  seq m = seq m' ∧ consensusTs m = consensusTs m' ∧ flagged m = flagged m'.

(** A payload that parses to an object with a truthy property
    [_parseError] of its own. *)
Definition carriesFlag (e : MirrorMsg) : bool :=
  match message e with
  | Parsed content => truthy (default JUndef (own content "_parseError"))
  | Unparseable => false
  end.

(** The payloads of a page that do not parse. *)
Definition unparseable (entries : list MirrorMsg) : list MirrorMsg :=
  List.filter (fun e => match message e with
                        | Unparseable => true
                        | Parsed _ => false
                        end) entries.



(** The sequence number is below [2 ^ 53] in absolute value, where the
    [+ 1] and the [===] of the script, on doubles, are those of the
    integers. *)
Definition safeSeq (m : Message) : Prop := Z.abs (seq m) < 2 ^ 53.

(** The timestamp is ASCII text, where the [<] of the script is
    [strLt]. *)
Definition asciiTs (m : Message) : Prop := isAscii (consensusTs m) = true.

(** *** The run of main: where verify and displaySummary throw *)

(** [verify] throws a TypeError, which ends [main] in its [catch] with
    exit code 1: the first message is no [agent.create] and the template
    literal of the issue cannot render its [type]. *)
Definition verifyThrows (messages : list Message) : bool :=
  match messages with
  | [] => false
  | first :: _ => negb (isCreate first) && ToStringThrows (type first)
  end.

(** The call [verify(messages)] as [main] sees it: [None] when it
    throws, and otherwise the issue list it returns. *)
Definition verifyResult (messages : list Message) : option (list string) :=
  if verifyThrows messages then None else Some (verify messages).

(** The header of the summary, printed when [messages.find] returns an
    [agent.create]: its template literals render
    [data?.name || "Unknown"], [ts], [data?.framework || "Unknown"] and
    [data?.soul_hash || "None"].  (A value that [ToString] throws on is
    truthy.) *)
Definition headerThrows (messages : list Message) : bool :=
  match List.find isCreate messages with
  | Some agentCreate =>
      ToStringThrows (optProp (data agentCreate) "name")
      || ToStringThrows (ts agentCreate)
      || ToStringThrows (optProp (data agentCreate) "framework")
      || ToStringThrows (optProp (data agentCreate) "soul_hash")
  | None => false
  end.

(** The type summary: [typeCounts[t]] converts [t = m.type || "unknown"]
    to a property key. *)
Definition typeSummaryThrows (messages : list Message) : bool :=
  existsb (fun m => ToStringThrows (type m)) messages.

(** [m.data?.tool || m.data?.name || m.data?.status] and, when none is
    truthy, the empty string. *)
Definition infoOf (d : JsVal) : JsVal :=
  if truthy (optProp d "tool") then optProp d "tool"
  else if truthy (optProp d "name") then optProp d "name"
  else if truthy (optProp d "status") then optProp d "status"
  else JStr EmptyString.

(** The cell of [m.ts]: [slice(0, 19)] is called on [m.ts] when it is
    truthy, and the result is rendered by the template literal of the
    row.  A string has the method, an array has the one of
    [Array.prototype] and is rendered from its first 19 elements, no
    other value has one. *)
Definition tsThrows (v : JsVal) : bool :=
  match v with
  | JArr l => existsb ToStringThrows (take 19 l)
  | _ => padEndThrows v
  end.

(** The body of [for (const m of recent)]: [padEnd] is called on
    [m.type || "?"], on the info cell and on [m.data?.status] or the
    empty string. *)
Definition rowThrows (m : Message) : bool :=
  padEndThrows (type m)
  || padEndThrows (infoOf (data m))
  || padEndThrows (optProp (data m) "status")
  || tsThrows (ts m).

(** [messages.slice(-10)] and the loop over it. *)
Definition recentThrows (messages : list Message) : bool :=
  existsb rowThrows (drop (length messages - 10) messages).

Definition summaryThrows (messages : list Message) : bool :=
  headerThrows messages || typeSummaryThrows messages || recentThrows messages.

(** [displaySummary(messages, issues)], as far as the verification results
    go: [None] when the function throws before it reaches them, and
    otherwise the lines it prints under [// Verification results].  The
    lines of the header, of the type summary and of the recent
    attestations are not part of the result. *)
Definition displaySummary (messages : list Message) (issues : list string)
  : option (list string) :=
  if summaryThrows messages then None else Some (verificationLines issues).

(** [main] from the fetched messages on: [verify], then
    [displaySummary]; [None] when one of them throws, which [main]
    answers with [process.exit(1)]. *)
Definition report (messages : list Message) : option (list string) :=
  issues ← verifyResult messages;
  displaySummary messages issues.

(** The run prints the PASSED line. *)
Definition printsPassed (messages : list Message) : Prop :=
  report messages = Some [passedLine].

End Verify.

(** ** val-soul.js *)

Module Soul.

Import Verify.

(** The attestation handed to [TopicMessageSubmitTransaction]; [ts], the
    clock reading, is left out.  [files] is [None] in the trimmed
    attestation, which has no such property. *)
Record Attestation : Type := {
  val : string;
  type : string;
  agent : string;
  soul_hash : string;
  files : option (list (string * string));
  match_ : bool
}.

Section Producer.

(** [crypto.createHash("sha256").update(s).digest("hex")]. *)
Variable sha256hex : string → string.

(** [fs.readFileSync(path.join(workspaceDir, name), "utf-8")]; [None]
    when it throws. *)
Variable readFileSync : string → option string.

(** [Buffer.byteLength(JSON.stringify(attestation), "utf-8")]. *)
Variable byteLength : Attestation → nat.

(** [config.topicId]. *)
Variable topicId : string.

Definition identityFiles : list string :=
  ["SOUL.md"; "AGENTS.md"; "IDENTITY.md"; "USER.md"].

Definition hashFile (filePath : string) : option string :=
  match readFileSync filePath with
  | Some content => Some ("sha256:" +:+ sha256hex content)
  | None => None
  end.

(** The response of the mirror node to the request for the latest 25
    messages, newest first: [None] when [fetchJson] rejects, and inside
    it [None] when the response has no [messages]. *)
Definition Mirror : Type := option (option (list Payload)).

(** [v || null]. *)
Definition orNull (v : JsVal) : JsVal := if truthy v then v else JNull.

(** [for (const msg of resp.messages)]: a payload that does not parse is
    skipped, and so is one that parses to [null], on which [content.type]
    throws inside the [try]. *)
Fixpoint scanMessages (messages : list Payload) : JsVal :=
  match messages with
  | [] => JNull
  | Unparseable :: rest => scanMessages rest
  | Parsed content :: rest =>
      match content with
      | JUndef | JNull => scanMessages rest
      | _ =>
          if strictEqStr (prop content "type") "soul.verify"
             || strictEqStr (prop content "type") "agent.create"
          then orNull (optProp (prop content "data") "soul_hash")
          else scanMessages rest
      end
  end.

Definition getLastSoulHash (mirror : Mirror) : JsVal :=
  match mirror with
  | Some (Some messages) => scanMessages messages
  | Some None => JNull
  | None => JNull
  end.

(** [files], the object filled by the first loop of [main], as the list
    of its properties in insertion order. *)
Definition hashFiles (names : list string) : list (string * string) :=
  omap (fun filename =>
          match hashFile filename with
          | Some hash => Some (filename, hash)
          | None => None
          end) names.

(** [array.sort()] on strings. *)
Fixpoint insertSorted (x : string) (l : list string) : list string :=
  match l with
  | [] => [x]
  | y :: rest => if String.leb x y then x :: l else y :: insertSorted x rest
  end.

Definition sort (l : list string) : list string :=
  foldr insertSorted [] l.

(** [array.join(sep)]. *)
Fixpoint join (sep : string) (l : list string) : string :=
  match l with
  | [] => EmptyString
  | [x] => x
  | x :: rest => x +:+ sep +:+ join sep rest
  end.

Definition compositeHash (fileHashes : list (string * string)) : string :=
  let compositeInput := join "|" (sort (map snd fileHashes)) in
  "sha256:" +:+ sha256hex compositeInput.

(** [`${lastHash.slice(0, 20)}`] throws a TypeError: a number, a boolean
    and an object have no method [slice]; an array has one and is then
    rendered from its first 20 elements. *)
Definition lastHashThrows (lastHash : JsVal) : bool :=
  match lastHash with
  | JStr _ => false
  | JArr l => existsb ToStringThrows (take 20 l)
  | _ => true
  end.

(** [main]: [None] is [process.exit(1)], reached when no identity file
    is found and when the report of a truthy [lastHash] throws, which
    the [catch] on [main()] answers; [Some] is the attestation that is
    submitted. *)
Definition main (mirror : Mirror) : option Attestation :=
  let fileHashes := hashFiles identityFiles in
  if (length fileHashes =? 0)%nat then None
  else
    let soulHash := compositeHash fileHashes in
    let lastHash := getLastSoulHash mirror in
    let match_ :=
      if truthy lastHash then strictEqStr lastHash soulHash else true in
    if truthy lastHash && lastHashThrows lastHash then None
    else
    let attestation :=
      {| val := "1.0"; type := "soul.verify"; agent := topicId;
         soul_hash := soulHash; files := Some fileHashes;
         match_ := match_ |} in
    if (1024 <? byteLength attestation)%nat
    then Some {| val := "1.0"; type := "soul.verify"; agent := topicId;
                 soul_hash := soulHash; files := None; match_ := match_ |}
    else Some attestation.

End Producer.

End Soul.

(** ** The record table of the specification *)

Module Spec.

Import Verify.

(** The four kinds of the wire format. *)
Definition knownKinds : list string :=
  ["agent.create"; "action"; "soul.verify"; "heartbeat"].

(** The required fields of each kind, under their names on the wire. *)
Definition requiredFields (kind : string) : list string :=
  if String.eqb kind "agent.create" then ["name"; "soul_hash"; "capabilities"]
  else if String.eqb kind "action" then ["tool"; "status"]
  else if String.eqb kind "soul.verify" then ["soul_hash"; "match"]
  else if String.eqb kind "heartbeat" then ["status"]
  else [].

Definition knownKind (m : Message) : bool :=
  existsb (strictEqStr (type m)) knownKinds.

(** A record of a known kind that lacks one of its required fields. *)
Definition missesRequiredField (m : Message) : bool :=
  match type m with
  | JStr kind =>
      existsb (fun field => negb (bool_decide (is_Some (own (data m) field))))
        (requiredFields kind)
  | _ => false
  end.

End Spec.

(** ** Snapshots used below *)

Module Samples.

Import Verify.

Definition t0 : string := "1700000000.000000000".

Definition record (s : Z) (t : string) (kind : string) (d : JsVal) : Message :=
  {| seq := s; consensusTs := t; type := JStr kind;
     _parseError := JUndef; data := d; ts := JUndef |}.

(** A message whose payload did not parse, as [fetchAllMessages] pushes it. *)
Definition unparsed (s : Z) (t : string) : Message :=
  {| seq := s; consensusTs := t; type := JUndef;
     _parseError := JBool true; data := JUndef; ts := JUndef |}.

Definition creation (s : Z) (t : string) : Message :=
  record s t "agent.create"
    (JObj (<["name" := JStr "agent"]>
           (<["soul_hash" := JStr "sha256:none"]>
            {["capabilities" := JArr []]}))).

Definition action (s : Z) (t : string) : Message :=
  record s t "action"
    (JObj (<["tool" := JStr "web_search"]> {["status" := JStr "success"]})).

Definition identityCheck (s : Z) (t : string) (hash : string) (matched : bool)
  : Message :=
  record s t "soul.verify"
    (JObj (<["soul_hash" := JStr hash]> {["match" := JBool matched]})).

(** A creation record followed by four identity checks with the hashes
    [h1, h1, h2, h2]; [third] is the [match] field of the third check. *)
Definition driftSnapshot (s : Z) (t h1 h2 : string) (third : bool)
  : list Message :=
  [creation s t;
   identityCheck (s + 1) t h1 true;
   identityCheck (s + 2) t h1 true;
   identityCheck (s + 3) t h2 third;
   identityCheck (s + 4) t h2 true].

(** A creation record without any field, a record of a kind that does
    not exist, and an action, an identity check and a heartbeat without
    any field. *)
Definition fieldlessSnapshot : list Message :=
  [record 1 t0 "agent.create" (JObj ∅);
   record 2 t0 "telemetry" JUndef;
   record 3 t0 "action" (JObj ∅);
   record 4 t0 "soul.verify" (JObj ∅);
   record 5 t0 "heartbeat" (JObj ∅)].

(** A page with one payload that does not parse and one that parses to an
    object with a property [_parseError]. *)
Definition flaggedPage : list MirrorMsg :=
  [{| sequence_number := 1; consensus_timestamp := t0;
      message := Parsed (JObj {["type" := JStr "agent.create"]}) |};
   {| sequence_number := 2; consensus_timestamp := t0;
      message := Parsed (JObj (<["type" := JStr "action"]>
                               {["_parseError" := JBool true]})) |};
   {| sequence_number := 3; consensus_timestamp := t0;
      message := Unparseable |}].

Definition t1 : string := "1700000001.000000000".

Definition t2 : string := "1700000002.000000000".

(** A page on which the mirror node has the sequence numbers 1 and 3;
    the second payload has a property [seq] of its own. *)
Definition gapPage : list MirrorMsg :=
  [{| sequence_number := 1; consensus_timestamp := t0;
      message := Parsed (JObj {["type" := JStr "agent.create"]}) |};
   {| sequence_number := 3; consensus_timestamp := t1;
      message := Parsed (JObj (<["type" := JStr "action"]>
                               {["seq" := JNum 2]})) |}].

(** A page on which the second consensus timestamp is below the first;
    the second payload has a property [consensusTs] of its own. *)
Definition regressionPage : list MirrorMsg :=
  [{| sequence_number := 1; consensus_timestamp := t1;
      message := Parsed (JObj {["type" := JStr "agent.create"]}) |};
   {| sequence_number := 2; consensus_timestamp := t0;
      message := Parsed (JObj (<["type" := JStr "heartbeat"]>
                               {["consensusTs" := JStr t2]})) |}].

(** A page on which the mirror node has the sequence numbers 1 and 2 and
    rising timestamps; the second payload has properties [seq] and
    [consensusTs] of its own. *)
Definition counterPage : list MirrorMsg :=
  [{| sequence_number := 1; consensus_timestamp := t1;
      message := Parsed (JObj {["type" := JStr "agent.create"]}) |};
   {| sequence_number := 2; consensus_timestamp := t2;
      message := Parsed (JObj (<["type" := JStr "action"]>
                               (<["seq" := JNum 7]>
                                {["consensusTs" := JStr t0]}))) |}].

(** A page whose first payload is [{"type":{"toString":1}}]; the mirror
    node has the sequence numbers 1 and 3. *)
Definition opaqueKindPage : list MirrorMsg :=
  [{| sequence_number := 1; consensus_timestamp := t0;
      message := Parsed (JObj {["type" := JObj {["toString" := JNum 1]}]}) |};
   {| sequence_number := 3; consensus_timestamp := t1;
      message := Parsed (JObj {["type" := JStr "action"]}) |}].

(** The snapshot that [fetchAllMessages] builds from that page. *)
Definition opaqueKindSnapshot : list Message :=
  [{| seq := 1; consensusTs := t0; type := JObj {["toString" := JNum 1]};
      _parseError := JUndef; data := JUndef; ts := JUndef |};
   record 3 t1 "action" JUndef].

(** A workspace with one identity file, and a stand-in for the digest. *)
Definition oneFile (name : string) : option string :=
  if String.eqb name "SOUL.md" then Some "be helpful" else None.

Definition toyDigest (s : string) : string := s.

End Samples.

(** ** The command line *)

Module Cli.

(** [args.indexOf(x)]: the index of the first element equal to [x];
    [None] is [-1]. *)
Fixpoint indexOf (args : list string) (x : string) : option nat :=
  match args with
  | [] => None
  | a :: rest => if String.eqb a x then Some 0%nat else S <$> indexOf rest x
  end.

(** [getArg(name, defaultVal)]; [None] is [null]. *)
Definition getArg (args : list string) (name : string)
  (defaultVal : option string) : option string :=
  match indexOf args ("--" +:+ name) with
  | None => defaultVal
  | Some idx =>
      if (length args <=? idx + 1)%nat then defaultVal
      else match args !! (idx + 1)%nat with
           | Some value => Some value
           | None => defaultVal
           end
  end.

End Cli.

(** ** Reading pages and snapshots *)

Module Audit.

Import Verify.

(** The entries of all the pages, those after an empty page included. *)
Fixpoint allEntries (pages : Pages) : list MirrorMsg :=
  match pages with
  | LastPage entries => default [] entries
  | NextPage entries rest => default [] entries ++ allEntries rest
  end.

(** Every page that links to a next one has entries. *)
Fixpoint linkedPagesFilled (pages : Pages) : bool :=
  match pages with
  | LastPage _ => true
  | NextPage (Some (_ :: _)) rest => linkedPagesFilled rest
  | NextPage _ _ => false
  end.

(** No timestamp of the snapshot is below an earlier one. *)
Definition timeOrdered (messages : list Message) : Prop :=
  ∀ i j a b, (i < j)%nat → messages !! i = Some a → messages !! j = Some b →
             strLt (consensusTs b) (consensusTs a) = false.

(** A log that the script passes. *)
Definition clean (messages : list Message) : Prop :=
  ∃ first rest,
    messages = first :: rest
    ∧ type first = JStr "agent.create"
    ∧ consecutiveFrom (seq first) messages
    ∧ timeOrdered messages
    ∧ Forall (fun m => flagged m = false) messages
    ∧ Forall (fun m => optMatchIsFalse (data m) = false)
        (tail (List.filter isSoulVerify messages)).






(** A page whose mirror sequence numbers are 1 and 5 and whose payloads
    carry the sequence numbers 1 and 2. *)
Definition spoofedPage : list MirrorMsg :=
  [{| sequence_number := 1; consensus_timestamp := Samples.t0;
      message := Parsed (JObj (<["type" := JStr "agent.create"]>
                               {["seq" := JNum 1]})) |};
   {| sequence_number := 5; consensus_timestamp := Samples.t0;
      message := Parsed (JObj (<["type" := JStr "action"]>
                               {["seq" := JNum 2]})) |}].


(** A page with a payload that parses and one that does not. *)
Definition tornPage : list MirrorMsg :=
  [{| sequence_number := 1; consensus_timestamp := Samples.t0;
      message := Parsed (JObj {["type" := JStr "agent.create"]}) |};
   {| sequence_number := 2; consensus_timestamp := Samples.t0;
      message := Unparseable |}].

End Audit.

(** ** The attestation summary *)

Module Summary.

Import Verify.

(** The names that [Object.prototype] defines: on an object literal a
    read of one of them finds the inherited value, not a count. *)
Definition objectPrototypeKeys : list string :=
  ["constructor"; "__defineGetter__"; "__defineSetter__"; "hasOwnProperty";
   "__lookupGetter__"; "__lookupSetter__"; "isPrototypeOf";
   "propertyIsEnumerable"; "toString"; "valueOf"; "__proto__";
   "toLocaleString"].

(** [m.type || "unknown"], as the property key it is used for, when the
    conversion to a key does not throw. *)
Definition typeKey (m : Message) : string :=
  if truthy (type m) then ToString (type m) else "unknown".

(** [typeCounts[t] = (typeCounts[t] || 0) + 1] on the own properties of
    [typeCounts]; [None] when the step does not end with a count: the
    conversion of [t] to a property key throws, or [t] is a name of
    [Object.prototype], where the script adds 1 to an inherited
    function. *)
Definition countType (typeCounts : gmap string nat) (m : Message)
  : option (gmap string nat) :=
  let t := typeKey m in
  if ToStringThrows (type m) then None
  else if bool_decide (t ∈ objectPrototypeKeys) then None
  else Some (<[t := (default 0 (typeCounts !! t) + 1)%nat]> typeCounts).

(** A message that the loop counts: its type has a property key, the
    text of the type, and the key is no name of [Object.prototype]. *)
Definition counted (m : Message) : bool :=
  negb (ToStringThrows (type m)) && inRange (type m)
  && negb (bool_decide (typeKey m ∈ objectPrototypeKeys)).

(** [for (const m of messages) { ... }], from [typeCounts]. *)
Fixpoint countTypes (messages : list Message) (typeCounts : gmap string nat)
  : option (gmap string nat) :=
  match messages with
  | [] => Some typeCounts
  | m :: rest =>
      typeCounts' ← countType typeCounts m;
      countTypes rest typeCounts'
  end.

(** The sum of the counts. *)
Definition total (typeCounts : gmap string nat) : nat :=
  map_fold (fun _ n acc => (n + acc)%nat) 0%nat typeCounts.

End Summary.

(** ** Reading the answer of the mirror *)

Module SoulReading.

Import Verify.

(** A payload that [getLastSoulHash] stops at: it parses to an object
    whose [type] is [soul.verify] or [agent.create]. *)
Definition qualifies (p : Payload) : bool :=
  match p with
  | Parsed (JObj fields) =>
      strictEqStr (default JUndef (fields !! "type")) "soul.verify"
      || strictEqStr (default JUndef (fields !! "type")) "agent.create"
  | _ => false
  end.

(** The order [array.sort()] puts strings in. *)
Definition leq (a b : string) : Prop := String.leb a b = true.

(** The newest messages of a topic, as the mirror serves them: one that
    does not parse, an action, the latest identity check and an older
    one. *)
Definition latestMessages : list Payload :=
  [Unparseable;
   Parsed (JObj {["type" := JStr "action"]});
   Parsed (JObj (<["type" := JStr "soul.verify"]>
                 {["data" := JObj {["soul_hash" := JStr "sha256:aa"]}]}));
   Parsed (JObj (<["type" := JStr "soul.verify"]>
                 {["data" := JObj {["soul_hash" := JStr "sha256:00"]}]}))].

End SoulReading.

(** ** Facts on the list operations of the scripts *)

Lemma flat_map_fmap {A B C : Type} (f : B → list A) (g : C → B) (l : list C) :
  flat_map f (map g l) = flat_map (fun x => f (g x)) l.
Proof. induction l as [|x l IH]; simpl; [done | by rewrite IH]. Qed.

Section ListFacts.

Context {A B : Type}.

Lemma fold_left_push (step : B → list A → list A) (h : B → list A)
  (l : list B) (acc : list A) :
  (∀ i acc, step i acc = acc ++ h i) →
  fold_left (fun acc i => step i acc) l acc = acc ++ flat_map h l.
Proof.
  intros Hstep. revert acc.
  induction l as [|i l IH]; intros acc; simpl.
  - by rewrite app_nil_r.
  - rewrite IH, Hstep. by rewrite <- app_assoc.
Qed.

Lemma flat_map_lookup_seq (g : B → list A) (l : list B) :
  flat_map (fun i => match l !! i with Some x => g x | None => [] end)
    (List.seq 0 (length l)) = flat_map g l.
Proof.
  induction l as [|x l IH]; simpl; [done |].
  f_equal. rewrite <- seq_shift, flat_map_fmap. exact IH.
Qed.

Lemma filter_all (P : A → bool) (l : list A) :
  Forall (fun x => P x = true) l → List.filter P l = l.
Proof.
  induction 1 as [|x l Hx _ IH]; simpl; [done |]. by rewrite Hx, IH.
Qed.

Lemma filter_none (P : A → bool) (l : list A) :
  Forall (fun x => P x = false) l → List.filter P l = [].
Proof.
  induction 1 as [|x l Hx _ IH]; simpl; [done |]. by rewrite Hx, IH.
Qed.

End ListFacts.

(** ** The checks of verify *)

Module VerifyFacts.

Import Verify.

Lemma pairs_loop (g : Message * Message → list string) (messages : list Message) :
  flat_map (fun i => match messages !! (i - 1)%nat, messages !! i with
                     | Some prev, Some cur => g (prev, cur)
                     | _, _ => []
                     end)
    (List.seq 1 (length messages - 1)) = flat_map g (adjacent messages).
Proof.
  induction messages as [|a [|b rest] IH]; [done | done |].
  cbn [length] in *. rewrite Nat.sub_succ, Nat.sub_0_r in *.
  change (adjacent (a :: b :: rest)) with ((a, b) :: adjacent (b :: rest)).
  cbn [List.seq flat_map]. f_equal.
  rewrite <- IH, <- seq_shift, flat_map_fmap.
  rewrite !flat_map_concat_map. f_equal. apply map_ext_in.
  intros i Hi. apply in_seq in Hi. destruct i as [|j]; [lia |].
  by rewrite !Nat.sub_succ, !Nat.sub_0_r.

Qed.

Lemma forFrom1_pairs (g : Message * Message → list string)
  (body : Message → Message → list string → list string)
  (messages : list Message) (issues : list string) :
  (∀ prev cur acc, body prev cur acc = acc ++ g (prev, cur)) →
  forFrom1 (length messages) (fun i => atPair messages i body) issues
  = issues ++ flat_map g (adjacent messages).
Proof.
  intros Hbody. unfold forFrom1.
  rewrite (fold_left_push _
    (fun i => match messages !! (i - 1)%nat, messages !! i with
              | Some prev, Some cur => g (prev, cur)
              | _, _ => []
              end)).
  - by rewrite pairs_loop.
  - intros i acc. unfold atPair.
    destruct (messages !! (i - 1)%nat), (messages !! i);
      rewrite ?Hbody, ?app_nil_r; done.
Qed.

Lemma forFrom1_tail (g : Message → list string)
  (body : Message → list string → list string)
  (messages : list Message) (issues : list string) :
  (∀ cur acc, body cur acc = acc ++ g cur) →
  forFrom1 (length messages) (fun i => atIndex messages i body) issues
  = issues ++ flat_map g (tail messages).
Proof.
  intros Hbody. unfold forFrom1.
  rewrite (fold_left_push _
    (fun i => match messages !! i with Some cur => g cur | None => [] end)).
  - f_equal. destruct messages as [|a rest]; [done |].
    cbn [length tail]. rewrite Nat.sub_succ, Nat.sub_0_r.
    rewrite <- seq_shift, flat_map_fmap. apply flat_map_lookup_seq.
  - intros i acc. unfold atIndex.
    destruct (messages !! i); rewrite ?Hbody, ?app_nil_r; done.
Qed.

Lemma push_if (c : bool) (issues : list string) (s : string) :
  (if c then push issues s else issues) = issues ++ (if c then [s] else []).
Proof. destruct c; [done | by rewrite app_nil_r]. Qed.

Theorem verify_checks (first : Message) (rest : list Message) :
  verify (first :: rest)
  = (if isCreate first then [] else [firstIssue first])
      ++ flat_map gapOf (adjacent (first :: rest))
      ++ flat_map orderOf (adjacent (first :: rest))
      ++ parseOf (first :: rest)
      ++ flat_map soulOf (tail (List.filter isSoulVerify (first :: rest))).
Proof.
  unfold verify. change (length (first :: rest) =? 0)%nat with false.
  cbv beta iota zeta.
  rewrite (forFrom1_tail soulOf) by (intros; apply push_if).
  rewrite push_if.
  rewrite (forFrom1_pairs orderOf) by (intros; apply push_if).
  rewrite (forFrom1_pairs gapOf) by (intros; apply push_if).
  unfold atIndex. cbn [lookup list_lookup]. rewrite push_if.
  unfold isCreate, parseOf. 
  rewrite <- !app_assoc. cbn [app].
  destruct (strictEqStr (type first) "agent.create"); reflexivity.
Qed.

(** *** The text of the issues *)

Ltac issue_text :=
  unfold firstIssue, gapIssue, orderIssue, parseIssue, soulIssue, noMessages;
  repeat match goal with
         | |- context [pretty ?x] => destruct (pretty x)
         | |- context [ToString ?x] => destruct (ToString x)
         end;
  reflexivity.

Lemma severity_firstIssue m : severity (firstIssue m) = Some Fail.
Proof. issue_text. Qed.
Lemma severity_gapIssue prev cur : severity (gapIssue prev cur) = Some Fail.
Proof. issue_text. Qed.
Lemma severity_orderIssue cur : severity (orderIssue cur) = Some Fail.
Proof. issue_text. Qed.
Lemma severity_parseIssue n : severity (parseIssue n) = Some Warn.
Proof. issue_text. Qed.
Lemma severity_soulIssue m : severity (soulIssue m) = Some Info.
Proof. issue_text. Qed.

Lemma gap_prefix_firstIssue m :
  String.prefix "FAIL: Sequence gap between " (firstIssue m) = false.
Proof. issue_text. Qed.
Lemma gap_prefix_gapIssue prev cur :
  String.prefix "FAIL: Sequence gap between " (gapIssue prev cur) = true.
Proof. issue_text. Qed.
Lemma gap_prefix_orderIssue cur :
  String.prefix "FAIL: Sequence gap between " (orderIssue cur) = false.
Proof. issue_text. Qed.
Lemma gap_prefix_parseIssue n :
  String.prefix "FAIL: Sequence gap between " (parseIssue n) = false.
Proof. issue_text. Qed.
Lemma gap_prefix_soulIssue m :
  String.prefix "FAIL: Sequence gap between " (soulIssue m) = false.
Proof. issue_text. Qed.

Lemma order_prefix_firstIssue m :
  String.prefix "FAIL: Timestamp ordering violated at seq " (firstIssue m)
  = false.
Proof. issue_text. Qed.
Lemma order_prefix_gapIssue prev cur :
  String.prefix "FAIL: Timestamp ordering violated at seq " (gapIssue prev cur)
  = false.
Proof. issue_text. Qed.
Lemma order_prefix_orderIssue cur :
  String.prefix "FAIL: Timestamp ordering violated at seq " (orderIssue cur)
  = true.
Proof. issue_text. Qed.
Lemma order_prefix_parseIssue n :
  String.prefix "FAIL: Timestamp ordering violated at seq " (parseIssue n)
  = false.
Proof. issue_text. Qed.
Lemma order_prefix_soulIssue m :
  String.prefix "FAIL: Timestamp ordering violated at seq " (soulIssue m)
  = false.
Proof. issue_text. Qed.

(** *** What a class of issues keeps of each check *)

Section Classes.

Variable P : string → bool.

Lemma filter_first (c : bool) (m : Message) (b : bool) :
  P (firstIssue m) = b →
  List.filter P (if c then [] else [firstIssue m])
  = if b then (if c then [] else [firstIssue m]) else [].
Proof. intros <-. destruct c; simpl; [by destruct (P _) | done]. Qed.

Lemma filter_gaps (b : bool) (pairs : list (Message * Message)) :
  (∀ prev cur, P (gapIssue prev cur) = b) →
  List.filter P (flat_map gapOf pairs) = if b then flat_map gapOf pairs else [].
Proof.
  intros H. destruct b; [apply filter_all | apply filter_none];
    apply Forall_flat_map, Forall_forall; intros [prev cur] _; unfold gapOf;
    destruct (negb _); repeat constructor; apply H.
Qed.

Lemma filter_orders (b : bool) (pairs : list (Message * Message)) :
  (∀ cur, P (orderIssue cur) = b) →
  List.filter P (flat_map orderOf pairs)
  = if b then flat_map orderOf pairs else [].
Proof.
  intros H. destruct b; [apply filter_all | apply filter_none];
    apply Forall_flat_map, Forall_forall; intros [prev cur] _; unfold orderOf;
    destruct (strLt _ _); repeat constructor; apply H.
Qed.

Lemma filter_parse (b : bool) (messages : list Message) :
  (∀ n, P (parseIssue n) = b) →
  List.filter P (parseOf messages) = if b then parseOf messages else [].
Proof.
  intros H. unfold parseOf. destruct (0 <? _)%nat; simpl;
    [rewrite H |]; by destruct b.
Qed.

Lemma filter_souls (b : bool) (records : list Message) :
  (∀ m, P (soulIssue m) = b) →
  List.filter P (flat_map soulOf records)
  = if b then flat_map soulOf records else [].
Proof.
  intros H. destruct b; [apply filter_all | apply filter_none];
    apply Forall_flat_map, Forall_forall; intros m _; unfold soulOf;
    destruct (optMatchIsFalse _); repeat constructor; apply H.
Qed.

End Classes.

Lemma hasSeverity_eq (s : Severity) (issue : string) (s' : Severity) :
  severity issue = Some s' →
  hasSeverity s issue = match s, s' with
                        | Fail, Fail | Warn, Warn | Info, Info => true
                        | _, _ => false
                        end.
Proof. unfold hasSeverity. intros ->. by destruct s, s'. Qed.

Ltac class_of_verify :=
  rewrite verify_checks;
  rewrite ?List.filter_app;
  erewrite filter_first, filter_gaps, filter_orders, filter_parse, filter_souls;
  [ | intros; first [ apply gap_prefix_soulIssue | apply order_prefix_soulIssue
                    | erewrite hasSeverity_eq by apply severity_soulIssue ]; reflexivity
    | intros; first [ apply gap_prefix_parseIssue | apply order_prefix_parseIssue
                    | erewrite hasSeverity_eq by apply severity_parseIssue ]; reflexivity
    | intros; first [ apply gap_prefix_orderIssue | apply order_prefix_orderIssue
                    | erewrite hasSeverity_eq by apply severity_orderIssue ]; reflexivity
    | intros; first [ apply gap_prefix_gapIssue | apply order_prefix_gapIssue
                    | erewrite hasSeverity_eq by apply severity_gapIssue ]; reflexivity
    | first [ apply gap_prefix_firstIssue | apply order_prefix_firstIssue
            | erewrite hasSeverity_eq by apply severity_firstIssue ]; reflexivity ];
  cbv iota; rewrite ?app_nil_r; try reflexivity.

Lemma gapIssues_verify (messages : list Message) :
  gapIssues (verify messages) = flat_map gapOf (adjacent messages).
Proof.
  destruct messages as [|first rest]; [reflexivity |].
  unfold gapIssues. class_of_verify.
Qed.


Lemma infoIssues_verify (messages : list Message) :
  infoIssues (verify messages)
  = flat_map soulOf (tail (List.filter isSoulVerify messages)).
Proof.
  destruct messages as [|first rest]; [reflexivity |].
  unfold infoIssues. class_of_verify.
Qed.

Lemma warnIssues_verify (messages : list Message) :
  warnIssues (verify messages) = parseOf messages.
Proof.
  destruct messages as [|first rest]; [reflexivity |].
  unfold warnIssues. class_of_verify.
Qed.

Lemma failIssues_verify (first : Message) (rest : list Message) :
  failIssues (verify (first :: rest))
  = (if isCreate first then [] else [firstIssue first])
      ++ flat_map gapOf (adjacent (first :: rest))
      ++ flat_map orderOf (adjacent (first :: rest)).
Proof.
  unfold failIssues. class_of_verify.
Qed.

(** *** Facts on the values and on snapshots *)

Lemma strLt_irrefl (s : string) : strLt s s = false.
Proof.
  unfold strLt, String.ltb.
  pose proof (String.compare_antisym s s) as H.
  destruct (String.compare s s); try done.
Qed.

Lemma strictEqStr_false (v : JsVal) (s : string) :
  v ≠ JStr s → strictEqStr v s = false.
Proof.
  intros Hne. destruct v; try done. simpl.
  apply String.eqb_neq. congruence.
Qed.

Lemma showsPassed_nil (issues : list string) :
  showsPassed issues ↔ issues = [].
Proof.
  unfold showsPassed, verificationLines.
  destruct issues as [|issue issues]; simpl; [done |].
  split; [| done]. intros H. injection H as H _. by vm_compute in H.
Qed.

Lemma consecutive_tail (s0 : Z) (m : Message) (rest : list Message) :
  consecutiveFrom s0 (m :: rest) →
  seq m = s0 ∧ consecutiveFrom (s0 + 1) rest.
Proof.
  unfold consecutiveFrom. cbn [map length List.seq].
  intros H. injection H as Hm Hrest. split; [lia |].
  rewrite Hrest, <- seq_shift, map_map.
  apply map_ext. intros i. lia.
Qed.

Lemma consecutive_no_gap (s0 : Z) (messages : list Message) :
  consecutiveFrom s0 messages → flat_map gapOf (adjacent messages) = [].
Proof.
  revert s0. induction messages as [|a [|b rest] IH]; intros s0 H; [done | done |].
  change (adjacent (a :: b :: rest)) with ((a, b) :: adjacent (b :: rest)).
  apply consecutive_tail in H as [Ha H].
  cbn [flat_map]. rewrite (IH _ H), app_nil_r.
  apply consecutive_tail in H as [Hb _].
  unfold gapOf. rewrite Ha, Hb, Z.eqb_refl. done.
Qed.







Example timestampText_sample :
  timestampText 1700000000 1 = "1700000000.000000001".
Proof. reflexivity. Qed.

Lemma orderOf_equal (pairs : list (Message * Message)) :
  Forall (fun pair => consensusTs pair.2 = consensusTs pair.1) pairs →
  flat_map orderOf pairs = [].
Proof.
  induction 1 as [|[prev cur] pairs Heq _ IH]; [done |].
  cbn [flat_map]. rewrite IH, app_nil_r. unfold orderOf.
  cbn [fst snd] in Heq. by rewrite Heq, strLt_irrefl.
Qed.

(** Property X18.  On a snapshot whose sequence numbers are below
    [2 ^ 53] in absolute value and whose timestamps are ASCII strings:
    when the first record is no [agent.create] and its [type] can be
    rendered, [verify] returns, the Fail issue on the first message,
    which quotes the text of that type, heads the list, and all that the
    other checks find over the whole snapshot follows: the first check
    suppresses none of them. *)
Theorem first_issue_heads_list (first : Message) (rest : list Message) :
  Forall safeSeq (first :: rest) → Forall asciiTs (first :: rest) →
  type first ≠ JStr "agent.create" →
  ToStringThrows (type first) = false → inRange (type first) = true →
  verifyResult (first :: rest)
  = Some (firstIssue first
            :: flat_map gapOf (adjacent (first :: rest))
            ++ flat_map orderOf (adjacent (first :: rest))
            ++ parseOf (first :: rest)
            ++ flat_map soulOf
                 (tail (List.filter isSoulVerify (first :: rest)))).
Proof.
  intros _ _ Hkind Hrender _. unfold verifyResult, verifyThrows.
  rewrite Hrender, andb_false_r, verify_checks. unfold isCreate.
  by rewrite (strictEqStr_false _ _ Hkind).
Qed.

Lemma first_issue_heads_list_witness :
  Forall safeSeq [Samples.action 1 Samples.t1; Samples.action 3 Samples.t0]
  ∧ Forall asciiTs [Samples.action 1 Samples.t1; Samples.action 3 Samples.t0]
  ∧ type (Samples.action 1 Samples.t1) ≠ JStr "agent.create"
  ∧ ToStringThrows (type (Samples.action 1 Samples.t1)) = false
  ∧ inRange (type (Samples.action 1 Samples.t1)) = true
  ∧ verifyResult [Samples.action 1 Samples.t1; Samples.action 3 Samples.t0]
    = Some ["FAIL: First message is " +:+ dq +:+ "action" +:+ dq
              +:+ ", expected " +:+ dq +:+ "agent.create" +:+ dq;
            "FAIL: Sequence gap between 1 and 3";
            "FAIL: Timestamp ordering violated at seq 3"].
Proof.
  assert (Forall safeSeq [Samples.action 1 Samples.t1;
                          Samples.action 3 Samples.t0]) as Hsafe
    by (by repeat constructor).
  assert (Forall asciiTs [Samples.action 1 Samples.t1;
                          Samples.action 3 Samples.t0]) as Hascii
    by (by repeat constructor).
  refine (conj Hsafe (conj Hascii (conj _ (conj eq_refl (conj eq_refl _)))));
    [discriminate |].
  exact (first_issue_heads_list (Samples.action 1 Samples.t1)
           [Samples.action 3 Samples.t0] Hsafe Hascii
           ltac:(discriminate) eq_refl eq_refl).
Defined.

(** Claim C7.  On the empty snapshot [verify] returns one issue and
    nothing else, the Fail issue that no message was found; the summary
    lists it instead of showing PASSED, and the total of records is 0. *)
Theorem empty_snapshot :
  verify [] = ["FAIL: No messages found on topic"]
  ∧ failIssues (verify []) = verify []
  ∧ verificationLines (verify [])
    = [issuesHeading; "     FAIL: No messages found on topic"]
  ∧ ¬ showsPassed (verify [])
  ∧ totalLine [] = "  TOTAL                     0"
  ∧ fetchAllMessages (LastPage (Some [])) = Some [].
Proof.
  refine (conj _ (conj _ (conj _ (conj _ (conj _ _))))); try reflexivity.
  rewrite showsPassed_nil. discriminate.
Qed.

(** *** Records that the checks cannot tell apart *)

Lemma adjacent_Forall2 (R : Message → Message → Prop)
  (l l' : list Message) :
  Forall2 R l l' →
  Forall2 (fun p p' => R p.1 p'.1 ∧ R p.2 p'.2) (adjacent l) (adjacent l').
Proof.
  induction 1 as [|a a' l l' Ha Hl IH]; [constructor |].
  destruct Hl as [|b b' l l' Hb Hl]; [constructor |].
  change (adjacent (a :: b :: l)) with ((a, b) :: adjacent (b :: l)).
  change (adjacent (a' :: b' :: l')) with ((a', b') :: adjacent (b' :: l')).
  constructor; [done | exact IH].
Qed.

Lemma flat_map_Forall2 {A B C : Type} (f : A → list C) (g : B → list C)
  (l : list A) (l' : list B) :
  Forall2 (fun x y => f x = g y) l l' → flat_map f l = flat_map g l'.
Proof. induction 1 as [|x y l l' Hxy _ IH]; simpl; [done | by rewrite Hxy, IH]. Qed.

Lemma checks_ext (l l' : list Message) :
  Forall2 sameChecked l l' →
  flat_map gapOf (adjacent l) = flat_map gapOf (adjacent l')
  ∧ flat_map orderOf (adjacent l) = flat_map orderOf (adjacent l')
  ∧ parseOf l = parseOf l'.
Proof.
  intros H. split; [| split].
  - apply flat_map_Forall2.
    eapply Forall2_impl; [by apply adjacent_Forall2 |].
    intros [p c] [p' c'] [(Hp & _ & _) (Hc & _ & _)]. cbn [fst snd] in *.
    unfold gapOf, gapIssue. by rewrite Hp, Hc.
  - apply flat_map_Forall2.
    eapply Forall2_impl; [by apply adjacent_Forall2 |].
    intros [p c] [p' c'] [(_ & Hp & _) (Hc & Hc' & _)]. cbn [fst snd] in *.
    unfold orderOf, orderIssue. by rewrite Hp, Hc, Hc'.
  - unfold parseOf.
    assert (length (List.filter flagged l) = length (List.filter flagged l'))
      as ->; [| done].
    induction H as [|m m' l l' (_ & _ & Hm) _ IH]; [done |].
    cbn [List.filter]. rewrite Hm. destruct (flagged m'); simpl; by rewrite IH.
Qed.

Lemma verify_ext_soul (first first' : Message) (rest rest' : list Message) :
  type first = type first' →
  Forall2 sameChecked (first :: rest) (first' :: rest') →
  flat_map soulOf (tail (List.filter isSoulVerify (first :: rest)))
  = flat_map soulOf (tail (List.filter isSoulVerify (first' :: rest'))) →
  verify (first :: rest) = verify (first' :: rest').
Proof.
  intros Htype Hsame Hsoul. rewrite !verify_checks.
  destruct (checks_ext _ _ Hsame) as (-> & -> & ->).
  rewrite Hsoul. unfold isCreate, firstIssue. by rewrite Htype.
Qed.

Lemma verify_ext (first first' : Message) (rest rest' : list Message) :
  type first = type first' →
  Forall2 sameChecked (first :: rest) (first' :: rest') →
  tail (List.filter isSoulVerify (first :: rest))
  = tail (List.filter isSoulVerify (first' :: rest')) →
  verify (first :: rest) = verify (first' :: rest').
Proof.
  intros Htype Hsame Hsoul. apply verify_ext_soul; [done | done |].
  by rewrite Hsoul.
Qed.

Lemma sameChecked_withData (d : JsVal) (m : Message) :
  sameChecked (withData d m) m.
Proof. done. Qed.

Lemma sameChecked_eraseData (m : Message) : sameChecked (eraseData m) m.
Proof. done. Qed.

Lemma sameChecked_eraseKind (m : Message) : sameChecked (eraseKind m) m.
Proof. done. Qed.

Lemma optMatchIsFalse_matchOnly (d : JsVal) :
  optMatchIsFalse (matchOnly d) = optMatchIsFalse d.
Proof. unfold matchOnly. by destruct (optMatchIsFalse d) eqn:Hd. Qed.

Lemma soulOf_eraseData (m : Message) : soulOf (eraseData m) = soulOf m.
Proof.
  unfold soulOf, soulIssue. cbn [data seq eraseData].
  by rewrite optMatchIsFalse_matchOnly.
Qed.

Lemma soulOf_eraseKind (m : Message) : soulOf (eraseKind m) = soulOf m.
Proof. apply soulOf_eraseData. Qed.

Lemma isSoulVerify_eraseKind (m : Message) :
  isSoulVerify (eraseKind m) = isSoulVerify m.
Proof.
  unfold eraseKind, isSoulVerify at 1. cbn [type withType].
  by destruct (isSoulVerify m).
Qed.

Lemma filter_soul_eraseKind (l : list Message) :
  List.filter isSoulVerify (map eraseKind l)
  = map eraseKind (List.filter isSoulVerify l).
Proof.
  induction l as [|m l IH]; [done |].
  cbn [map List.filter]. rewrite IH, isSoulVerify_eraseKind.
  by destruct (isSoulVerify m).
Qed.

Lemma souls_eraseKind (l : list Message) :
  flat_map soulOf (map eraseKind l) = flat_map soulOf l.
Proof.
  rewrite flat_map_fmap. apply flat_map_ext. intros m. apply soulOf_eraseKind.
Qed.

Lemma souls_eraseUnchecked (first : Message) (rest : list Message) :
  flat_map soulOf
    (tail (List.filter isSoulVerify (eraseData first :: map eraseKind rest)))
  = flat_map soulOf (tail (List.filter isSoulVerify (first :: rest))).
Proof.
  cbn [List.filter]. rewrite filter_soul_eraseKind.
  change (isSoulVerify (eraseData first)) with (isSoulVerify first).
  destruct (isSoulVerify first); cbn [tail].
  - apply souls_eraseKind.
  - destruct (List.filter isSoulVerify rest) as [|r records]; [done |].
    cbn [map tail]. apply souls_eraseKind.
Qed.

Lemma failKind_firstIssue (m : Message) : failKind (firstIssue m) = true.
Proof.
  unfold failKind. replace (String.prefix "FAIL: First message is " (firstIssue m))
    with true; [by rewrite orb_true_r |].
  issue_text.
Qed.

Lemma failKind_gapIssue (prev cur : Message) :
  failKind (gapIssue prev cur) = true.
Proof.
  unfold failKind. rewrite gap_prefix_gapIssue. by rewrite orb_true_r.
Qed.

Lemma failKind_orderIssue (cur : Message) : failKind (orderIssue cur) = true.
Proof.
  unfold failKind. rewrite order_prefix_orderIssue. by rewrite orb_true_r.
Qed.

Lemma failKind_verify (messages : list Message) :
  Forall (fun issue => failKind issue = true) (failIssues (verify messages)).
Proof.
  destruct messages as [|first rest]; [by repeat constructor |].
  rewrite failIssues_verify, !Forall_app. split; [| split].
  - destruct (isCreate first); repeat constructor; apply failKind_firstIssue.
  - apply Forall_flat_map, Forall_forall. intros [prev cur] _. unfold gapOf.
    destruct (negb _); repeat constructor; apply failKind_gapIssue.
  - apply Forall_flat_map, Forall_forall. intros [prev cur] _. unfold orderOf.
    destruct (strLt _ _); repeat constructor; apply failKind_orderIssue.
Qed.

Lemma filter_soul_withFirst (d : JsVal) (l : list Message) :
  tail (List.filter isSoulVerify (withFirstSoulData d l))
  = tail (List.filter isSoulVerify l).
Proof.
  induction l as [|m l IH]; [done |].
  cbn [withFirstSoulData List.filter].
  destruct (isSoulVerify m) eqn:Hm; cbn [List.filter].
  - change (isSoulVerify (withData d m)) with (isSoulVerify m).
    by rewrite Hm.
  - by rewrite Hm.
Qed.

Lemma sameChecked_withFirst (d : JsVal) (l : list Message) :
  Forall2 sameChecked (withFirstSoulData d l) l.
Proof.
  induction l as [|m l IH]; [constructor |].
  cbn [withFirstSoulData]. destruct (isSoulVerify m).
  - constructor; [done |]. apply Forall2_same_length_lookup_2; [done |].
    intros i x y Hx Hy. by simplify_eq.
  - by constructor.
Qed.

Lemma optMatchIsFalse_spec (d : JsVal) :
  optMatchIsFalse d = true
  ↔ ∃ fields, d = JObj fields ∧ fields !! "match" = Some (JBool false).
Proof.
  split.
  - destruct d as [| | | | |l|fields]; try done.
    unfold optMatchIsFalse, optProp, prop.
    destruct (fields !! "match") as [[| |[|]| | | |]|] eqn:Hf; try done.
    intros _. by exists fields.
  - intros (fields & -> & Hf). unfold optMatchIsFalse, optProp, prop.
    by rewrite Hf.
Qed.

(** Claim C9, as the script has it.  The Info issues of [verify] are, in
    order, one for each [soul.verify] record after the first whose
    [data.match] is [false], and no other: the first [soul.verify] record
    gets none.  Its payload, the [match] field and the hash included, has
    no effect on the issue list; the checks that do not read the payload
    run over it as over any record. *)
Theorem first_soul_verify_silent (messages : list Message) :
  infoIssues (verify messages)
  = flat_map (fun m => if optMatchIsFalse (data m)
                       then ["INFO: Soul hash changed at seq "
                               +:+ pretty (seq m) +:+ " (identity modified)"]
                       else [])
      (tail (List.filter isSoulVerify messages))
  ∧ (∀ d, verify (withFirstSoulData d messages) = verify messages)
  ∧ (∀ d, optMatchIsFalse d = true
          ↔ ∃ fields, d = JObj fields ∧ fields !! "match" = Some (JBool false)).
Proof.
  split; [apply infoIssues_verify | split; [| apply optMatchIsFalse_spec]].
  intros d. pose proof (sameChecked_withFirst d messages) as Hsame.
  pose proof (filter_soul_withFirst d messages) as Hsoul.
  destruct messages as [|first rest]; [done |].
  destruct (withFirstSoulData d (first :: rest)) as [|first' rest'] eqn:Heq;
    [by inversion Hsame |].
  apply verify_ext; [| done | done].
  cbn [withFirstSoulData] in Heq. destruct (isSoulVerify first); by simplify_eq.
Qed.

Lemma first_soul_verify_can_fail :
  verify [Samples.identityCheck 2 Samples.t0 "sha256:aa" true]
  = ["FAIL: First message is " +:+ dq +:+ "soul.verify" +:+ dq
       +:+ ", expected " +:+ dq +:+ "agent.create" +:+ dq]
  ∧ gapIssues (verify [Samples.creation 1 Samples.t1;
                       Samples.identityCheck 3 Samples.t0 "sha256:aa" true])
    = ["FAIL: Sequence gap between 1 and 3"]
  ∧ orderIssues (verify [Samples.creation 1 Samples.t1;
                         Samples.identityCheck 3 Samples.t0 "sha256:aa" true])
    = ["FAIL: Timestamp ordering violated at seq 3"].
Proof. by vm_compute. Qed.

(** Claim C2, as the script has it.  [verify] has no required-field
    check and no check of the kind.  Its issue list stays as it is when
    every payload is erased but for the answer to [data?.match === false],
    and the kind of every record after the first but for whether it is
    [soul.verify]: no field of the table is read, of no kind of record,
    [soul.verify] included.  Every Fail issue is the one of the empty log
    or comes from the checks of the first message, of the sequence and of
    the timestamps, and the only Warn issue there can be is the one that
    counts the messages flagged as unparsed. *)
Theorem no_field_or_kind_check (messages : list Message) :
  verify (eraseUnchecked messages) = verify messages
  ∧ Forall (fun issue =>
              issue = "FAIL: No messages found on topic"
              ∨ String.prefix "FAIL: First message is " issue = true
              ∨ String.prefix "FAIL: Sequence gap between " issue = true
              ∨ String.prefix "FAIL: Timestamp ordering violated at seq " issue
                = true)
      (failIssues (verify messages))
  ∧ warnIssues (verify messages)
    = (let n := length (List.filter flagged messages) in
       if (0 <? n)%nat
       then ["WARN: " +:+ pretty n +:+ " message(s) could not be parsed as JSON"]
       else []).
Proof.
  refine (conj _ (conj _ (warnIssues_verify messages))).
  - destruct messages as [|first rest]; [done |].
    cbn [eraseUnchecked]. apply verify_ext_soul.
    + done.
    + constructor; [apply sameChecked_eraseData |].
      apply Forall2_fmap_l, Forall_Forall2_diag, Forall_forall.
      intros m _. apply sameChecked_eraseKind.
    + apply souls_eraseUnchecked.
  - eapply Forall_impl; [apply failKind_verify |].
    intros issue. unfold failKind. rewrite !orb_true_iff, String.eqb_eq.
    tauto.
Qed.

Lemma fieldless_records_raise_nothing :
  Spec.missesRequiredField <$> Samples.fieldlessSnapshot
  = [true; false; true; true; true]
  ∧ Spec.knownKind <$> Samples.fieldlessSnapshot
    = [true; false; true; true; true]
  ∧ verify Samples.fieldlessSnapshot = [].
Proof. by vm_compute. Qed.

Lemma verify_nil_returns (messages : list Message) :
  verify messages = [] → verifyThrows messages = false.
Proof.
  destruct messages as [|first rest]; [done |].
  rewrite verify_checks. unfold verifyThrows.
  by destruct (isCreate first).
Qed.

Lemma printsPassed_nil (messages : list Message) :
  printsPassed messages
  ↔ verify messages = [] ∧ summaryThrows messages = false.
Proof.
  unfold printsPassed, report, verifyResult, displaySummary. split.
  - destruct (verifyThrows messages); [done |]. cbn.
    destruct (summaryThrows messages); [done |].
    intros [= H]. by apply showsPassed_nil in H.
  - intros [Hnil Hsum]. rewrite (verify_nil_returns _ Hnil). cbn.
    rewrite Hsum, Hnil. reflexivity.
Qed.

(** Claim C1, as the script has it.  For every issue list: when
    [displaySummary] prints PASSED the list is empty, and so has no Fail
    issue; and when [displaySummary] reaches the verification results,
    it prints PASSED if and only if the list is empty, while for a list
    with an issue of any severity, Warn and Info included, it prints the
    issues under their heading instead. *)
Theorem passed_iff_no_issue (messages : list Message) (issues : list string) :
  (displaySummary messages issues = Some [passedLine] →
   issues = [] ∧ failIssues issues = [])
  ∧ (summaryThrows messages = false →
     (displaySummary messages issues = Some [passedLine] ↔ issues = [])
     ∧ (issues ≠ [] →
        displaySummary messages issues
        = Some (issuesHeading
                  :: map (fun issue => "     " +:+ issue) issues))).
Proof.
  assert (displaySummary messages issues = Some [passedLine] → issues = [])
    as Hnil.
  { unfold displaySummary. destruct (summaryThrows messages); [done |].
    intros [= H]. by apply showsPassed_nil in H. }
  split.
  - intros ->%Hnil. by split.
  - intros Hsum. split.
    + split; [exact Hnil |]. intros ->. unfold displaySummary. by rewrite Hsum.
    + intros Hne. unfold displaySummary, verificationLines. rewrite Hsum.
      by destruct issues.
Qed.

Lemma passed_iff_no_issue_witness :
  summaryThrows [Samples.creation 1 Samples.t0; Samples.unparsed 2 Samples.t0]
  = false
  ∧ ["WARN: 1 message(s) could not be parsed as JSON"] ≠ []
  ∧ displaySummary
      [Samples.creation 1 Samples.t0; Samples.unparsed 2 Samples.t0]
      ["WARN: 1 message(s) could not be parsed as JSON"]
    = Some [issuesHeading;
            "     WARN: 1 message(s) could not be parsed as JSON"].
Proof.
  refine (conj eq_refl (conj _ _)); [discriminate |].
  apply (proj2 (proj2 (passed_iff_no_issue
                         [Samples.creation 1 Samples.t0;
                          Samples.unparsed 2 Samples.t0]
                         ["WARN: 1 message(s) could not be parsed as JSON"])
                  eq_refl)).
  discriminate.
Defined.

Lemma warn_only_run_not_passed :
  verify [Samples.creation 1 Samples.t0; Samples.unparsed 2 Samples.t0]
  = ["WARN: 1 message(s) could not be parsed as JSON"]
  ∧ failIssues (verify [Samples.creation 1 Samples.t0;
                        Samples.unparsed 2 Samples.t0]) = []
  ∧ report [Samples.creation 1 Samples.t0; Samples.unparsed 2 Samples.t0]
    = Some [issuesHeading;
            "     WARN: 1 message(s) could not be parsed as JSON"]
  ∧ ¬ printsPassed [Samples.creation 1 Samples.t0;
                    Samples.unparsed 2 Samples.t0].
Proof.
  refine (conj _ (conj _ (conj _ _))); [reflexivity | reflexivity | reflexivity |].
  unfold printsPassed. by vm_compute.
Qed.

(** A snapshot without an issue on which [displaySummary] throws, the
    tool of its second record being the number 5, and the same snapshot
    after ten more records, when the run prints PASSED. *)
Example summary_throw_hides_passed :
  let bad := Samples.record 2 Samples.t0 "action" (JObj {["tool" := JNum 5]}) in
  let more := map (fun s => Samples.action s Samples.t0)
                [3; 4; 5; 6; 7; 8; 9; 10; 11; 12] in
  verify [Samples.creation 1 Samples.t0; bad] = []
  ∧ report [Samples.creation 1 Samples.t0; bad] = None
  ∧ report (Samples.creation 1 Samples.t0 :: bad :: more) = Some [passedLine].
Proof. by vm_compute. Qed.

Lemma optMatchIsFalse_identityCheck (s : Z) (t hash : string) (matched : bool) :
  optMatchIsFalse (data (Samples.identityCheck s t hash matched))
  = negb matched.
Proof. by destruct matched. Qed.

Lemma driftSnapshot_consecutive (s : Z) (t h1 h2 : string) (third : bool) :
  consecutiveFrom s (Samples.driftSnapshot s t h1 h2 third).
Proof.
  unfold consecutiveFrom. cbn. repeat (f_equal; try lia).
Qed.

Lemma verify_driftSnapshot (s : Z) (t h1 h2 : string) (third : bool) :
  verify (Samples.driftSnapshot s t h1 h2 third)
  = if third then []
    else [soulIssue (Samples.identityCheck (s + 3) t h2 third)].
Proof.
  unfold Samples.driftSnapshot. rewrite verify_checks.
  rewrite (consecutive_no_gap s) by apply driftSnapshot_consecutive.
  rewrite orderOf_equal by (by repeat constructor).
  change (isCreate (Samples.creation s t)) with true.
  change (parseOf _) with (@nil string).
  cbn [app List.filter isSoulVerify strictEqStr type Samples.creation
         Samples.identityCheck Samples.record].
  cbn [String.eqb Ascii.eqb Bool.eqb tail flat_map].
  unfold soulOf. rewrite !optMatchIsFalse_identityCheck.
  by destruct third.
Qed.

(** The scenario in full: the issue list of a creation record followed by
    four identity checks. *)
Lemma drift_scenario (s : Z) (t h1 h2 : string) :
  verify (Samples.driftSnapshot s t h1 h2 false)
  = ["INFO: Soul hash changed at seq " +:+ pretty (s + 3)
       +:+ " (identity modified)"]
  ∧ verify (Samples.driftSnapshot s t h1 h2 true) = [].
Proof. by rewrite !verify_driftSnapshot. Qed.

Lemma declares_optMatchIsFalse (m : Message) (hash : string) (matched : bool) :
  declares m hash matched → optMatchIsFalse (data m) = negb matched.
Proof.
  intros (fields & -> & _ & Hm). unfold optMatchIsFalse, optProp, prop.
  rewrite Hm. by destruct matched.
Qed.

Lemma sameChecked_map_withData (d : JsVal) (l : list Message) :
  Forall2 sameChecked (map (withData d) l) l.
Proof.
  apply Forall2_fmap_l, Forall_Forall2_diag, Forall_forall.
  intros m _. apply sameChecked_withData.
Qed.

Lemma failIssues_payload (messages : list Message) :
  failIssues (verify messages)
  = failIssues (verify (map (withData JUndef) messages)).
Proof.
  destruct messages as [|first rest]; [done |].
  cbn [map]. rewrite !failIssues_verify.
  pose proof (sameChecked_map_withData JUndef (first :: rest)) as Hsame.
  destruct (checks_ext _ _ Hsame) as (Hgap & Horder & _).
  cbn [map] in Hgap, Horder. by rewrite Hgap, Horder.
Qed.

Lemma warnIssues_payload (messages : list Message) :
  warnIssues (verify messages)
  = warnIssues (verify (map (withData JUndef) messages)).
Proof.
  rewrite !warnIssues_verify.
  pose proof (sameChecked_map_withData JUndef messages) as Hsame.
  by destruct (checks_ext _ _ Hsame) as (_ & _ & ->).
Qed.

(** Claim C3, as the script has it.  For a snapshot whose [soul.verify]
    records are four and declare the hashes [h1, h1, h2, h2], the second
    and the fourth with [match: true]: when the third declares
    [match: false], [verify] returns exactly one Info issue, at the third
    record; when it declares [match: true], [verify] returns no Info
    issue, whatever the hashes are.  In both cases the Fail and the Warn
    issues are those of the snapshot with all payloads erased: the
    identity checks add none. *)
Theorem identity_drift_by_match_flag (messages : list Message)
  (r1 r2 r3 r4 : Message) (h1 h2 : string) (first third : bool) :
  List.filter isSoulVerify messages = [r1; r2; r3; r4] →
  declares r1 h1 first → declares r2 h1 true →
  declares r3 h2 third → declares r4 h2 true →
  infoIssues (verify messages)
  = (if third then []
     else ["INFO: Soul hash changed at seq " +:+ pretty (seq r3)
             +:+ " (identity modified)"])
  ∧ failIssues (verify messages)
    = failIssues (verify (map (withData JUndef) messages))
  ∧ warnIssues (verify messages)
    = warnIssues (verify (map (withData JUndef) messages)).
Proof.
  intros Hsoul _ H2 H3 H4.
  split; [| split; [apply failIssues_payload | apply warnIssues_payload]].
  rewrite infoIssues_verify, Hsoul. cbn [tail flat_map]. unfold soulOf.
  rewrite (declares_optMatchIsFalse _ _ _ H2),
    (declares_optMatchIsFalse _ _ _ H3), (declares_optMatchIsFalse _ _ _ H4).
  by destruct third.
Qed.

Lemma identity_drift_by_match_flag_witness :
  List.filter isSoulVerify
    (Samples.driftSnapshot 1 Samples.t0 "sha256:aa" "sha256:bb" false)
  = [Samples.identityCheck 2 Samples.t0 "sha256:aa" true;
     Samples.identityCheck 3 Samples.t0 "sha256:aa" true;
     Samples.identityCheck 4 Samples.t0 "sha256:bb" false;
     Samples.identityCheck 5 Samples.t0 "sha256:bb" true]
  ∧ declares (Samples.identityCheck 2 Samples.t0 "sha256:aa" true)
      "sha256:aa" true
  ∧ declares (Samples.identityCheck 3 Samples.t0 "sha256:aa" true)
      "sha256:aa" true
  ∧ declares (Samples.identityCheck 4 Samples.t0 "sha256:bb" false)
      "sha256:bb" false
  ∧ declares (Samples.identityCheck 5 Samples.t0 "sha256:bb" true)
      "sha256:bb" true
  ∧ infoIssues
      (verify (Samples.driftSnapshot 1 Samples.t0 "sha256:aa" "sha256:bb" false))
    = ["INFO: Soul hash changed at seq 4 (identity modified)"].
Proof.
  assert (∀ s h b, declares (Samples.identityCheck s Samples.t0 h b) h b)
    as Hdeclares.
  { intros s h b. eexists. split; [reflexivity |]. split; reflexivity. }
  refine (conj eq_refl (conj (Hdeclares _ _ _) (conj (Hdeclares _ _ _)
           (conj (Hdeclares _ _ _) (conj (Hdeclares _ _ _) _))))).
  exact (proj1 (identity_drift_by_match_flag
                  (Samples.driftSnapshot 1 Samples.t0 "sha256:aa" "sha256:bb"
                     false)
                  _ _ _ _ "sha256:aa" "sha256:bb" true false eq_refl
                  (Hdeclares _ _ _) (Hdeclares _ _ _)
                  (Hdeclares _ _ _) (Hdeclares _ _ _))).
Defined.

Lemma undisclosed_drift_raises_nothing :
  verify (Samples.driftSnapshot 1 Samples.t0 "sha256:aa" "sha256:bb" true) = []
  ∧ infoIssues
      (verify (Samples.driftSnapshot 1 Samples.t0 "sha256:aa" "sha256:bb" true))
    = []
  ∧ warnIssues
      (verify (Samples.driftSnapshot 1 Samples.t0 "sha256:aa" "sha256:bb" true))
    = [].
Proof. by vm_compute. Qed.

(** Claim C8, at a page that the script miscounts: one payload of the
    page does not parse, a second one parses to an object with a property
    [_parseError] of its own, and the aggregated Warn issue counts two
    messages as not parsed instead of one. *)
Theorem parse_warning_counts_flag_property :
  length (unparseable Samples.flaggedPage) = 1%nat
  ∧ fetchAllMessages (LastPage (Some Samples.flaggedPage))
    = Some [Samples.record 1 Samples.t0 "agent.create" JUndef;
            {| seq := 2; consensusTs := Samples.t0; type := JStr "action";
               _parseError := JBool true; data := JUndef; ts := JUndef |};
            Samples.unparsed 3 Samples.t0]
  ∧ verify <$> fetchAllMessages (LastPage (Some Samples.flaggedPage))
    = Some ["WARN: 2 message(s) could not be parsed as JSON"].
Proof. by vm_compute. Qed.

(** Claim C4, at two pages on which the script checks the wrong
    numbers.  On the first the mirror node has the sequence numbers 1 and
    3, the second payload carries a property [seq] of 2, which the spread
    puts in the place of the 3: [verify] reports nothing and the run
    prints PASSED.  On the second the mirror node has the sequence
    numbers 1 and 2, the second payload carries a property [seq] of 7:
    [verify] reports a gap between 1 and 7. *)
Theorem gap_hidden_by_payload_seq :
  map sequence_number Samples.gapPage = [1; 3]
  ∧ fetchAllMessages (LastPage (Some Samples.gapPage))
    = Some [Samples.record 1 Samples.t0 "agent.create" JUndef;
            Samples.record 2 Samples.t1 "action" JUndef]
  ∧ verify <$> fetchAllMessages (LastPage (Some Samples.gapPage)) = Some []
  ∧ fetchAllMessages (LastPage (Some Samples.gapPage)) ≫= report
    = Some [passedLine]
  ∧ map sequence_number Samples.counterPage = [1; 2]
  ∧ gapIssues <$> (verify <$> fetchAllMessages
                                (LastPage (Some Samples.counterPage)))
    = Some ["FAIL: Sequence gap between 1 and 7"].
Proof. by vm_compute. Qed.

(** Claim C5, at two pages on which the script checks the wrong
    timestamps.  On the first the second consensus timestamp of the
    mirror node is below the first, the second payload carries a property
    [consensusTs] above both, which the spread puts in its place:
    [verify] reports nothing and the run prints PASSED.  On the second
    the consensus timestamps of the mirror node rise, the second payload
    carries a property [consensusTs] below the first: [verify] reports a
    regression. *)
Theorem regression_hidden_by_payload_timestamp :
  map consensus_timestamp Samples.regressionPage
  = [timestampText 1700000001 0; timestampText 1700000000 0]
  ∧ fetchAllMessages (LastPage (Some Samples.regressionPage))
    = Some [Samples.record 1 (timestampText 1700000001 0) "agent.create" JUndef;
            Samples.record 2 (timestampText 1700000002 0) "heartbeat" JUndef]
  ∧ verify <$> fetchAllMessages (LastPage (Some Samples.regressionPage))
    = Some []
  ∧ fetchAllMessages (LastPage (Some Samples.regressionPage)) ≫= report
    = Some [passedLine]
  ∧ map consensus_timestamp Samples.counterPage
    = [timestampText 1700000001 0; timestampText 1700000002 0]
  ∧ orderIssues <$> (verify <$> fetchAllMessages
                                  (LastPage (Some Samples.counterPage)))
    = Some ["FAIL: Timestamp ordering violated at seq 7"].
Proof. by vm_compute. Qed.

(** Claim C6, at a page on which the script ends without an issue list:
    the first payload is [{"type":{"toString":1}}], no [agent.create];
    rendering its type for the issue on the first message throws, so that
    [verify] returns nothing, neither that issue nor the gap between the
    sequence numbers 1 and 3, and the run ends in the [catch] of
    [main]. *)
Theorem first_record_kind_can_throw :
  fetchAllMessages (LastPage (Some Samples.opaqueKindPage))
  = Some Samples.opaqueKindSnapshot
  ∧ isCreate <$> head Samples.opaqueKindSnapshot = Some false
  ∧ map seq Samples.opaqueKindSnapshot = [1; 3]
  ∧ verifyResult Samples.opaqueKindSnapshot = None
  ∧ report Samples.opaqueKindSnapshot = None.
Proof. by vm_compute. Qed.

(** What holds of the parse check on all pages. *)
Lemma decodeMessage_unparseable (e : MirrorMsg) :
  message e = Unparseable →
  decodeMessage e
  = Some {| seq := sequence_number e; consensusTs := consensus_timestamp e;
            type := JUndef; _parseError := JBool true; data := JUndef;
            ts := JUndef |}.
Proof. unfold decodeMessage. by intros ->. Qed.

Lemma mapM_app {A B : Type} (f : A → option B) (l1 l2 : list A) :
  mapM f (l1 ++ l2)
  = k1 ← mapM f l1; k2 ← mapM f l2; Some (k1 ++ k2).
Proof.
  induction l1 as [|x l1 IH]; cbn.
  - by destruct (mapM f l2).
  - destruct (f x); cbn; [| done]. rewrite IH.
    destruct (mapM f l1); cbn; [| done]. by destruct (mapM f l2).
Qed.

Lemma fetchLoop_entries (pages : Pages) (messages : list Message) :
  fetchLoop pages messages
  = decoded ← mapM decodeMessage (entriesRead pages);
    Some (messages ++ decoded).
Proof.
  revert messages.
  induction pages as [[[|e entries]|]|[[|e entries]|] rest IH]; intros messages;
    cbn [fetchLoop entriesRead]; try (cbn; by rewrite app_nil_r).
  - reflexivity.
  - unfold pushPage. rewrite mapM_app.
    destruct (mapM decodeMessage (e :: entries)) as [k1|]; cbn; [| done].
    rewrite IH. destruct (mapM decodeMessage (entriesRead rest)); cbn; [| done].
    by rewrite app_assoc.
Qed.

Lemma fetchAllMessages_entries (pages : Pages) :
  fetchAllMessages pages = mapM decodeMessage (entriesRead pages).
Proof.
  unfold fetchAllMessages. rewrite fetchLoop_entries.
  by destruct (mapM decodeMessage (entriesRead pages)).
Qed.

Lemma decode_entries (entries : list MirrorMsg) (messages : list Message) :
  mapM decodeMessage entries = Some messages →
  length messages = length entries
  ∧ Forall2 (fun e m => message e = Unparseable →
                        seq m = sequence_number e
                        ∧ consensusTs m = consensus_timestamp e
                        ∧ flagged m = true) entries messages
  ∧ (Forall (fun e => carriesFlag e = false) entries →
     warnIssues (verify messages)
     = let k := length (unparseable entries) in
       if (0 <? k)%nat then [parseIssue k] else []).
Proof.
  intros H. apply mapM_Some in H.
  refine (conj _ (conj _ _)).
  - symmetry. by eapply Forall2_length.
  - eapply Forall2_impl; [exact H |].
    intros e m Hd He. cbv beta in Hd.
    rewrite (decodeMessage_unparseable _ He) in Hd.
    by simplify_eq.
  - intros Hflag. rewrite warnIssues_verify. unfold parseOf.
    assert (length (List.filter flagged messages)
            = length (unparseable entries)) as ->; [| done].
    unfold unparseable.
    induction H as [|e m entries messages Hd _ IH]; [done |].
    inversion Hflag as [|? ? He Hrest]; subst.
    cbn [List.filter]. specialize (IH Hrest).
    unfold decodeMessage, carriesFlag in *.
    destruct (message e) as [|content].
    + simplify_eq. cbn [flagged _parseError truthy length]. by rewrite IH.
    + destruct (spreadSeq _ _), (spreadTs _ _); cbn in Hd; simplify_eq.
      unfold flagged at 1. cbn [_parseError]. by rewrite He.
Qed.

(** On the pages where no payload that parses carries a truthy
    [_parseError], the messages that do not parse keep their place, their
    sequence number and their timestamp, and the one Warn issue counts
    them.  ([fetchAllMessages] is [None] only where a payload replaces
    [seq] or [consensusTs] by a value outside the typed [Message].) *)
Lemma decode_tolerance (pages : Pages) (messages : list Message) :
  fetchAllMessages pages = Some messages →
  length messages = length (entriesRead pages)
  ∧ Forall2 (fun e m => message e = Unparseable →
                        seq m = sequence_number e
                        ∧ consensusTs m = consensus_timestamp e
                        ∧ flagged m = true) (entriesRead pages) messages
  ∧ (Forall (fun e => carriesFlag e = false) (entriesRead pages) →
     warnIssues (verify messages)
     = let k := length (unparseable (entriesRead pages)) in
       if (0 <? k)%nat then [parseIssue k] else []).
Proof. rewrite fetchAllMessages_entries. apply decode_entries. Qed.

End VerifyFacts.

(** ** The soul-verification producer *)

Module SoulFacts.

Import Verify Soul SoulReading.

Lemma orNull_falsy (v : JsVal) : truthy (orNull v) = false → orNull v = JNull.
Proof. unfold orNull. by destruct (truthy v) eqn:Hv; [rewrite Hv |]. Qed.

Lemma scanMessages_falsy (messages : list Payload) :
  truthy (scanMessages messages) = false → scanMessages messages = JNull.
Proof.
  induction messages as [|[|content] rest IH]; [done | done |].
  cbn [scanMessages].
  destruct content; try exact IH;
    (destruct (_ || _); [apply orNull_falsy | exact IH]).
Qed.

Lemma getLastSoulHash_falsy (mirror : Mirror) :
  truthy (getLastSoulHash mirror) = false → getLastSoulHash mirror = JNull.
Proof.
  destruct mirror as [[messages|]|]; [apply scanMessages_falsy | done | done].
Qed.

Lemma strictEqStr_true (v : JsVal) (s : string) :
  strictEqStr v s = true ↔ v = JStr s.
Proof.
  split.
  - destruct v; try done. simpl. by intros ->%String.eqb_eq.
  - intros ->. apply String.eqb_refl.
Qed.

Lemma scanMessages_skips (skipped rest : list Payload) :
  Forall (fun p => qualifies p = false) skipped →
  scanMessages (skipped ++ rest) = scanMessages rest.
Proof.
  induction 1 as [|p skipped Hp _ IH]; [done |].
  cbn [app scanMessages]. destruct p as [|content]; [done |].
  destruct content as [| | | | | |fields]; try done.
  cbn in Hp. unfold prop. by rewrite Hp.
Qed.

Lemma scanMessages_none (messages : list Payload) :
  Forall (fun p => qualifies p = false) messages →
  scanMessages messages = JNull.
Proof.
  intros H. rewrite <- (app_nil_r messages). by rewrite scanMessages_skips.
Qed.

Lemma scanMessages_newest (skipped rest : list Payload)
  (fields : gmap string JsVal) :
  Forall (fun p => qualifies p = false) skipped →
  qualifies (Parsed (JObj fields)) = true →
  scanMessages (skipped ++ Parsed (JObj fields) :: rest)
  = orNull (optProp (default JUndef (fields !! "data")) "soul_hash").
Proof.
  intros Hskipped Hq. rewrite scanMessages_skips by done.
  cbn in Hq |- *. unfold prop. by rewrite Hq.
Qed.

Lemma orNull_null (v : JsVal) : orNull v = JNull ↔ truthy v = false.
Proof.
  unfold orNull. destruct (truthy v) eqn:Hv; [| done].
  split; [| done]. intros ->. done.
Qed.

Section Producer.

Variable sha256hex : string → string.
Variable readFileSync : string → option string.
Variable byteLength : Attestation → nat.
Variable topicId : string.

Let fileHashes := hashFiles sha256hex readFileSync identityFiles.
Let soulHash := compositeHash sha256hex fileHashes.
Let run := main sha256hex readFileSync byteLength topicId.

(** What [main] has computed when it submits. *)
Lemma main_submits (mirror : Mirror) (attestation : Attestation) :
  run mirror = Some attestation →
  fileHashes ≠ []
  ∧ (truthy (getLastSoulHash mirror) && lastHashThrows (getLastSoulHash mirror))
    = false
  ∧ soul_hash attestation = soulHash
  ∧ match_ attestation
    = (if truthy (getLastSoulHash mirror)
       then strictEqStr (getLastSoulHash mirror) soulHash else true).
Proof.
  unfold run, main. fold fileHashes. fold soulHash.
  destruct fileHashes as [|file files] eqn:Hf; [done |].
  cbn [length Nat.eqb].
  destruct (truthy (getLastSoulHash mirror)
            && lastHashThrows (getLastSoulHash mirror)); [done |].
  destruct (1024 <? _)%nat; intros [= <-]; done.
Qed.

Lemma main_returns (mirror : Mirror) :
  fileHashes ≠ [] →
  (truthy (getLastSoulHash mirror) && lastHashThrows (getLastSoulHash mirror))
  = false →
  ∃ attestation, run mirror = Some attestation.
Proof.
  unfold run, main. fold fileHashes. fold soulHash.
  destruct fileHashes as [|file files] eqn:Hf; [done |].
  intros _ ->. cbn [length Nat.eqb].
  destruct (1024 <? _)%nat; by eexists.
Qed.

Lemma match_by_last (lastHash : JsVal) :
  (truthy lastHash = false → lastHash = JNull) →
  (if truthy lastHash then strictEqStr lastHash soulHash else true) = true
  ↔ lastHash = JNull ∨ lastHash = JStr soulHash.
Proof.
  intros Hfalsy. destruct (truthy lastHash) eqn:Hlast.
  - rewrite strictEqStr_true. split; [by right |].
    intros [Hnull | H]; [| done]. by rewrite Hnull in Hlast.
  - split; [| done]. intros _. left. by apply Hfalsy.
Qed.

(** Claim C10.  When an identity file can be read and the report of the
    last hash does not throw, [main] submits an attestation; it carries
    the composite hash of the identity files, and its [match] field is
    [true] if and only if [getLastSoulHash] returned [null] or that
    composite hash.  On the answer of the mirror: when the newest message
    that parses to a [soul.verify] or an [agent.create] is found, [match]
    is [true] if and only if that message has no truthy [data.soul_hash]
    or has the composite hash there; when the answer has no such message,
    no messages at all, or does not come, [match] is [true]. *)
Theorem match_field (mirror : Mirror) :
  fileHashes ≠ [] →
  (truthy (getLastSoulHash mirror) && lastHashThrows (getLastSoulHash mirror))
  = false →
  ∃ attestation,
    run mirror = Some attestation
    ∧ soul_hash attestation = soulHash
    ∧ (match_ attestation = true
       ↔ getLastSoulHash mirror = JNull
         ∨ getLastSoulHash mirror = JStr soulHash)
    ∧ (∀ skipped fields rest,
         mirror = Some (Some (skipped ++ Parsed (JObj fields) :: rest)) →
         Forall (fun p => qualifies p = false) skipped →
         qualifies (Parsed (JObj fields)) = true →
         match_ attestation = true
         ↔ truthy (optProp (default JUndef (fields !! "data")) "soul_hash")
           = false
           ∨ optProp (default JUndef (fields !! "data")) "soul_hash"
             = JStr soulHash)
    ∧ (∀ messages,
         mirror = Some (Some messages) →
         Forall (fun p => qualifies p = false) messages →
         match_ attestation = true)
    ∧ (mirror = None ∨ mirror = Some None → match_ attestation = true).
Proof.
  intros Hfiles Hprints.
  destruct (main_returns mirror Hfiles Hprints) as [attestation Hrun].
  exists attestation. split; [exact Hrun |].
  apply main_submits in Hrun as (_ & _ & Hhash & Hmatch).
  assert (match_ attestation = true
          ↔ getLastSoulHash mirror = JNull
            ∨ getLastSoulHash mirror = JStr soulHash) as Hiff.
  { rewrite Hmatch. apply match_by_last, getLastSoulHash_falsy. }
  refine (conj Hhash (conj Hiff (conj _ (conj _ _)))).
  - intros skipped fields rest -> Hskipped Hq. rewrite Hiff.
    cbn [getLastSoulHash]. rewrite scanMessages_newest by done.
    set (found := optProp (default JUndef (fields !! "data")) "soul_hash").
    rewrite orNull_null. unfold orNull.
    destruct (truthy found) eqn:Hfound; [| by split; left].
    split; (intros [H | H]; [done | by right]).
  - intros messages -> Hnone. apply Hiff. left. by apply scanMessages_none.
  - intros [-> | ->]; apply Hiff; by left.
Qed.

End Producer.

Lemma match_field_witness :
  hashFiles Samples.toyDigest Samples.oneFile identityFiles ≠ []
  ∧ (truthy (getLastSoulHash (Some (Some latestMessages)))
     && lastHashThrows (getLastSoulHash (Some (Some latestMessages)))) = false
  ∧ ∃ attestation,
      main Samples.toyDigest Samples.oneFile (fun _ => 0%nat) "0.0.1"
        (Some (Some latestMessages)) = Some attestation
      ∧ soul_hash attestation = "sha256:sha256:be helpful"
      ∧ match_ attestation = false.
Proof.
  refine (conj _ (conj eq_refl _)); [discriminate |].
  destruct (match_field Samples.toyDigest Samples.oneFile (fun _ => 0%nat)
              "0.0.1" (Some (Some latestMessages)) ltac:(discriminate) eq_refl)
    as (attestation & Hrun & Hhash & _ & Hnewest & _).
  exists attestation. refine (conj Hrun (conj Hhash _)).
  apply not_true_is_false. intros Hmatch.
  destruct (proj1 (Hnewest (take 2 latestMessages)
                     (<["type" := JStr "soul.verify"]>
                      {["data" := JObj {["soul_hash" := JStr "sha256:aa"]}]})
                     (drop 3 latestMessages) eq_refl
                     ltac:(by repeat constructor) eq_refl) Hmatch)
    as [Hfalsy | Hsame]; discriminate.
Defined.

(** With a last hash that is a number, [main] submits nothing. *)
Example main_exits_on_numeric_hash :
  main Samples.toyDigest Samples.oneFile (fun _ => 0%nat) "0.0.1"
    (Some (Some [Parsed (JObj (<["type" := JStr "soul.verify"]>
                               {["data" := JObj {["soul_hash" := JNum 5]}]}))]))
  = None.
Proof. reflexivity. Qed.

End SoulFacts.

(** ** More on the audit script *)

Module AuditFacts.

Import Verify VerifyFacts Audit.

Lemma compare_lt_trans (a b c : string) :
  String.compare a b = Lt → String.compare b c = Lt → String.compare a c = Lt.
Proof.
  revert b c. induction a as [|x a IH]; intros [|y b] [|z c]; simpl; try done.
  unfold Ascii.compare.
  destruct (N.compare_spec (Ascii.N_of_ascii x) (Ascii.N_of_ascii y)) as [Hxy|Hxy|Hxy];
    destruct (N.compare_spec (Ascii.N_of_ascii y) (Ascii.N_of_ascii z)) as [Hyz|Hyz|Hyz];
    try done; intros H1 H2.
  - rewrite Hxy, Hyz, N.compare_refl. by eapply IH.
  - rewrite Hxy. by apply N.compare_lt_iff in Hyz as ->.
  - rewrite <- Hyz. by apply N.compare_lt_iff in Hxy as ->.
  - assert (Ascii.N_of_ascii x < Ascii.N_of_ascii z)%N as Hxz by lia.
    by apply N.compare_lt_iff in Hxz as ->.
Qed.

Lemma strLt_false_leb (a b : string) :
  strLt b a = false ↔ String.leb a b = true.
Proof.
  unfold strLt, String.ltb, String.leb. rewrite (String.compare_antisym a b).
  by destruct (String.compare b a).
Qed.

Lemma leb_trans (a b c : string) :
  String.leb a b = true → String.leb b c = true → String.leb a c = true.
Proof.
  unfold String.leb.
  destruct (String.compare a b) eqn:Hab; [| | done];
    destruct (String.compare b c) eqn:Hbc; try done; intros _ _.
  - apply String.compare_eq_iff in Hab as ->. by rewrite Hbc.
  - apply String.compare_eq_iff in Hab as ->. by rewrite Hbc.
  - apply String.compare_eq_iff in Hbc as <-. by rewrite Hab.
  - by rewrite (compare_lt_trans _ _ _ Hab Hbc).
Qed.

Lemma leb_refl (a : string) : String.leb a a = true.
Proof. apply strLt_false_leb, strLt_irrefl. Qed.

Lemma flat_map_nil {A B : Type} (f : A → list B) (l : list A) :
  flat_map f l = [] ↔ Forall (fun x => f x = []) l.
Proof.
  induction l as [|x l IH]; simpl.
  - split; [constructor | done].
  - rewrite app_nil, IH. split.
    + intros [Hx Hl]. by constructor.
    + intros H. by inversion H.
Qed.

Lemma length_flat_map_le {A B : Type} (f : A → list B) (l : list A) :
  (∀ x, length (f x) ≤ 1)%nat → (length (flat_map f l) ≤ length l)%nat.
Proof.
  intros Hf. induction l as [|x l IH]; simpl; [lia |].
  rewrite length_app. specialize (Hf x). lia.
Qed.

Lemma length_adjacent (messages : list Message) :
  length (adjacent messages) = (length messages - 1)%nat.
Proof.
  induction messages as [|a [|b rest] IH]; [done | done |].
  change (adjacent (a :: b :: rest)) with ((a, b) :: adjacent (b :: rest)).
  cbn [length] in *. lia.
Qed.

Lemma adjacent_lookup (messages : list Message) (i : nat) (a b : Message) :
  adjacent messages !! i = Some (a, b)
  ↔ messages !! i = Some a ∧ messages !! S i = Some b.
Proof.
  revert i. induction messages as [|x [|y rest] IH]; intros i.
  - split; [done | by intros [? _]].
  - split; [done |]. intros [_ H]. by destruct i.
  - change (adjacent (x :: y :: rest)) with ((x, y) :: adjacent (y :: rest)).
    destruct i as [|i].
    + cbn. split; [by intros [= -> ->] | by intros [[= ->] [= ->]]].
    + change (((x, y) :: adjacent (y :: rest)) !! S i)
        with (adjacent (y :: rest) !! i).
      rewrite IH. done.
Qed.

Lemma adjacent_app (messages more : list Message) :
  ∃ extra, adjacent (messages ++ more) = adjacent messages ++ extra.
Proof.
  induction messages as [|a [|b rest] IH].
  - by eexists.
  - by eexists.
  - destruct IH as [extra IH]. exists extra.
    change (adjacent ((a :: b :: rest) ++ more))
      with ((a, b) :: adjacent ((b :: rest) ++ more)).
    by rewrite IH.
Qed.

Lemma isCreate_true (m : Message) :
  isCreate m = true ↔ type m = JStr "agent.create".
Proof.
  unfold isCreate. split.
  - destruct (type m); try done. simpl. by intros ->%String.eqb_eq.
  - intros ->. reflexivity.
Qed.

Lemma consecutive_cons (s0 : Z) (m : Message) (rest : list Message) :
  seq m = s0 → consecutiveFrom (s0 + 1) rest → consecutiveFrom s0 (m :: rest).
Proof.
  unfold consecutiveFrom. cbn [map length List.seq]. intros -> ->.
  f_equal; [lia |]. rewrite <- seq_shift, map_map.
  apply map_ext. intros i. lia.
Qed.

Lemma no_gap_consecutive (first : Message) (rest : list Message) :
  flat_map gapOf (adjacent (first :: rest)) = [] →
  consecutiveFrom (seq first) (first :: rest).
Proof.
  revert first. induction rest as [|b rest IH]; intros a H.
  - unfold consecutiveFrom. cbn. f_equal. lia.
  - change (adjacent (a :: b :: rest)) with ((a, b) :: adjacent (b :: rest)) in H.
    cbn [flat_map] in H. apply app_nil in H as [Hab H].
    apply consecutive_cons; [done |].
    unfold gapOf in Hab.
    destruct (Z.eqb_spec (seq b) (seq a + 1)) as [Heq|]; [| done].
    rewrite <- Heq. by apply IH.
Qed.

Lemma gaps_nil_consecutive (first : Message) (rest : list Message) :
  flat_map gapOf (adjacent (first :: rest)) = []
  ↔ consecutiveFrom (seq first) (first :: rest).
Proof. split; [apply no_gap_consecutive | apply consecutive_no_gap]. Qed.

Lemma orders_nil_timeOrdered (messages : list Message) :
  flat_map orderOf (adjacent messages) = [] ↔ timeOrdered messages.
Proof.
  rewrite flat_map_nil, Forall_lookup. unfold timeOrdered. split.
  - intros Hadj i j a b Hij Ha Hb. revert b Hb.
    induction j as [|j IH]; intros b Hb; [lia |].
    destruct (lookup_lt_is_Some_2 messages j) as [c Hc].
    { apply lookup_lt_Some in Hb. lia. }
    assert (strLt (consensusTs b) (consensusTs c) = false) as Hcb.
    { specialize (Hadj j (c, b) (proj2 (adjacent_lookup _ _ _ _) (conj Hc Hb))).
      unfold orderOf in Hadj. by destruct (strLt _ _). }
    destruct (decide (i = j)) as [->|Hne]; [by simplify_eq |].
    specialize (IH ltac:(lia) c Hc).
    apply strLt_false_leb. apply strLt_false_leb in IH, Hcb.
    by eapply leb_trans.
  - intros Hord i [a b] [Ha Hb]%adjacent_lookup.
    unfold orderOf. by rewrite (Hord i (S i) a b ltac:(lia) Ha Hb).
Qed.

Lemma parseOf_nil (messages : list Message) :
  parseOf messages = [] ↔ Forall (fun m => flagged m = false) messages.
Proof.
  unfold parseOf. split.
  - intros H. induction messages as [|m messages IH]; [constructor |].
    cbn [List.filter] in H. destruct (flagged m) eqn:Hm; [done |].
    constructor; [done | by apply IH].
  - intros H. by rewrite (filter_none _ _ H).
Qed.

Lemma soulOf_nil (records : list Message) :
  flat_map soulOf records = []
  ↔ Forall (fun m => optMatchIsFalse (data m) = false) records.
Proof.
  rewrite flat_map_nil. apply Forall_iff. intros m. unfold soulOf.
  by destruct (optMatchIsFalse _).
Qed.

Lemma verify_by_severity (messages : list Message) :
  verify messages
  = failIssues (verify messages) ++ warnIssues (verify messages)
      ++ infoIssues (verify messages).
Proof.
  destruct messages as [|first rest]; [reflexivity |].
  rewrite failIssues_verify, warnIssues_verify, infoIssues_verify, verify_checks.
  by rewrite <- !app_assoc.
Qed.

(** Property X1.  The issue list of [verify] is grouped by severity: all
    Fail issues, then the Warn issue, of which there is at most one, then
    all Info issues; every issue is of one of the three. *)
Theorem issues_grouped_by_severity (messages : list Message) :
  verify messages
  = failIssues (verify messages) ++ warnIssues (verify messages)
      ++ infoIssues (verify messages)
  ∧ (length (warnIssues (verify messages)) ≤ 1)%nat.
Proof.
  split; [apply verify_by_severity |].
  rewrite warnIssues_verify. unfold parseOf. destruct (0 <? _)%nat; cbn; lia.
Qed.

(** Property X4.  On a snapshot of [n >= 1] messages [verify] returns at
    most [3 n - 1] issues. *)
Theorem issue_count_bounded (messages : list Message) :
  messages ≠ [] →
  (length (verify messages) ≤ 3 * length messages - 1)%nat.
Proof.
  destruct messages as [|first rest]; [done | intros _].
  rewrite verify_checks, !length_app.
  pose proof (length_flat_map_le gapOf (adjacent (first :: rest))) as Hgap.
  pose proof (length_flat_map_le orderOf (adjacent (first :: rest))) as Hord.
  pose proof (length_flat_map_le soulOf
                (tail (List.filter isSoulVerify (first :: rest)))) as Hsoul.
  rewrite length_adjacent in Hgap, Hord.
  assert (length (tail (List.filter isSoulVerify (first :: rest)))
          ≤ length (first :: rest) - 1)%nat as Htail.
  { pose proof (filter_length_le isSoulVerify (first :: rest)).
    destruct (List.filter isSoulVerify (first :: rest)); cbn [tail length] in *; lia. }
  assert (length (if isCreate first then [] else [firstIssue first]) ≤ 1)%nat
    by (destruct (isCreate first); cbn; lia).
  assert (length (parseOf (first :: rest)) ≤ 1)%nat
    by (unfold parseOf; destruct (0 <? _)%nat; cbn; lia).
  cbn [length] in *.
  assert (∀ pair, length (gapOf pair) ≤ 1)%nat
    by (intros [p c]; unfold gapOf; destruct (negb _); cbn; lia).
  assert (∀ pair, length (orderOf pair) ≤ 1)%nat
    by (intros [p c]; unfold orderOf; destruct (strLt _ _); cbn; lia).
  assert (∀ m, length (soulOf m) ≤ 1)%nat
    by (intros m; unfold soulOf; destruct (optMatchIsFalse _); cbn; lia).
  specialize (Hgap ltac:(done)). specialize (Hord ltac:(done)).
  specialize (Hsoul ltac:(done)). lia.
Qed.






Lemma summary_throws_on_type (messages : list Message) (m : Message) :
  m ∈ messages → ToStringThrows (type m) = true →
  summaryThrows messages = true.
Proof.
  intros Hin Hm. unfold summaryThrows, typeSummaryThrows.
  assert (existsb (fun m => ToStringThrows (type m)) messages = true) as ->.
  { apply existsb_exists. exists m. split; [by apply list_elem_of_In | done]. }
  by rewrite orb_true_r.
Qed.

Lemma summary_throws_on_row (messages : list Message) (m : Message) :
  m ∈ drop (length messages - 10) messages → rowThrows m = true →
  summaryThrows messages = true.
Proof.
  intros Hin Hm. unfold summaryThrows, recentThrows.
  assert (existsb rowThrows (drop (length messages - 10) messages) = true)
    as ->.
  { apply existsb_exists. exists m. split; [by apply list_elem_of_In | done]. }
  by rewrite orb_true_r.
Qed.

(** Property X2.  On a snapshot whose sequence numbers are below
    [2 ^ 53] in absolute value and whose timestamps are ASCII strings, the
    run prints PASSED if and only if [displaySummary] does not throw and
    the snapshot is not empty, starts with an [agent.create], has
    consecutive sequence numbers from the first one on, has no timestamp
    below an earlier one, has no message flagged as unparsed, and has no
    [soul.verify] record after the first whose [data.match] is [false].
    It does not print PASSED when the type of some message cannot be
    rendered, nor when one of the last ten messages has a truthy [type],
    info cell or [data.status] that is no string, or a truthy [ts] that
    has no [slice] or cannot be rendered. *)
Theorem passed_iff_clean (messages : list Message) :
  Forall safeSeq messages → Forall asciiTs messages →
  (printsPassed messages ↔ clean messages ∧ summaryThrows messages = false)
  ∧ (∀ m, m ∈ messages → ToStringThrows (type m) = true →
          ¬ printsPassed messages)
  ∧ (∀ m, m ∈ drop (length messages - 10) messages →
          padEndThrows (type m) = true
          ∨ padEndThrows (infoOf (data m)) = true
          ∨ padEndThrows (optProp (data m) "status") = true
          ∨ tsThrows (ts m) = true →
          ¬ printsPassed messages).
Proof.
  intros _ _. refine (conj _ (conj _ _)).
  - rewrite printsPassed_nil.
    assert (verify messages = [] ↔ clean messages) as ->; [| done].
    unfold clean. destruct messages as [|first rest].
    + split; [done | by intros (? & ? & ? & _)].
    + rewrite verify_checks, !app_nil, gaps_nil_consecutive,
        orders_nil_timeOrdered, parseOf_nil, soulOf_nil.
      split.
      * intros (Hc & ? & ? & ? & ?). exists first, rest.
        split; [done |]. split; [| done].
        apply isCreate_true. by destruct (isCreate first).
      * intros (f & r & [= <- <-] & Hc & ? & ? & ? & ?).
        apply isCreate_true in Hc. by rewrite Hc.
  - intros m Hin Hm [_ Hsum]%printsPassed_nil.
    by rewrite (summary_throws_on_type _ _ Hin Hm) in Hsum.
  - intros m Hin Hm [_ Hsum]%printsPassed_nil.
    rewrite (summary_throws_on_row _ _ Hin) in Hsum; [done |].
    unfold rowThrows. rewrite !orb_true_iff. tauto.
Qed.

Lemma passed_iff_clean_witness :
  Forall safeSeq [Samples.creation 1 Samples.t0; Samples.action 2 Samples.t0]
  ∧ Forall asciiTs [Samples.creation 1 Samples.t0; Samples.action 2 Samples.t0]
  ∧ clean [Samples.creation 1 Samples.t0; Samples.action 2 Samples.t0]
  ∧ summaryThrows [Samples.creation 1 Samples.t0; Samples.action 2 Samples.t0]
    = false.
Proof.
  assert (Forall safeSeq [Samples.creation 1 Samples.t0;
                          Samples.action 2 Samples.t0]) as Hsafe
    by (by repeat constructor).
  assert (Forall asciiTs [Samples.creation 1 Samples.t0;
                          Samples.action 2 Samples.t0]) as Hascii
    by (by repeat constructor).
  refine (conj Hsafe (conj Hascii _)).
  apply (proj1 (proj1 (passed_iff_clean _ Hsafe Hascii))). reflexivity.
Defined.

Lemma filter_soul_tail_app (messages more : list Message) :
  ∃ extra,
    tail (List.filter isSoulVerify (messages ++ more))
    = tail (List.filter isSoulVerify messages) ++ extra
    ∨ List.filter isSoulVerify messages = [].
Proof.
  rewrite List.filter_app.
  destruct (List.filter isSoulVerify messages) as [|r records].
  - exists []. by right.
  - exists (List.filter isSoulVerify more). by left.
Qed.

(** Property X5.  A log that grows keeps its findings.  On snapshots
    whose sequence numbers are below [2 ^ 53] in absolute value and whose
    timestamps are ASCII strings: every Fail issue and every Info issue
    of a snapshot that is not empty is an issue of the snapshot with more
    messages appended, in the same order, and when [verify] has an issue
    for the snapshot it has one for the longer snapshot, for which the
    run does not print PASSED. *)
Theorem issues_persist (messages more : list Message) :
  messages ≠ [] →
  Forall safeSeq (messages ++ more) → Forall asciiTs (messages ++ more) →
  failIssues (verify messages) `sublist_of` failIssues (verify (messages ++ more))
  ∧ infoIssues (verify messages)
      `sublist_of` infoIssues (verify (messages ++ more))
  ∧ (verify messages ≠ [] →
     verify (messages ++ more) ≠ [] ∧ ¬ printsPassed (messages ++ more)).
Proof.
  destruct messages as [|first rest]; [done | intros _ _ _].
  assert (failIssues (verify (first :: rest))
            `sublist_of` failIssues (verify ((first :: rest) ++ more))) as Hfail.
  { cbn [app]. rewrite !failIssues_verify.
    destruct (adjacent_app (first :: rest) more) as [extra Hadj].
    cbn [app] in Hadj. rewrite Hadj, !flat_map_app.
    apply sublist_app; [done |].
    apply sublist_app; [by apply sublist_inserts_r |].
    by apply sublist_inserts_r. }
  assert (infoIssues (verify (first :: rest))
            `sublist_of` infoIssues (verify ((first :: rest) ++ more))) as Hinfo.
  { rewrite !infoIssues_verify.
    destruct (filter_soul_tail_app (first :: rest) more) as [extra [-> | ->]].
    - rewrite flat_map_app. by apply sublist_inserts_r.
    - apply sublist_nil_l. }
  split; [done |]. split; [done |].
  assert (verify (first :: rest) ≠ [] → verify ((first :: rest) ++ more) ≠ [])
    as Hkeep.
  { intros Hne Hnil. apply Hne.
    rewrite (verify_by_severity (first :: rest)).
    assert (warnIssues (verify ((first :: rest) ++ more)) = []) as Hw
      by (by rewrite Hnil).
    rewrite Hnil in Hfail, Hinfo.
    apply sublist_nil_r in Hfail as ->. apply sublist_nil_r in Hinfo as ->.
    rewrite warnIssues_verify in Hw |- *.
    apply parseOf_nil in Hw. apply Forall_app in Hw as [Hw _].
    by rewrite (proj2 (parseOf_nil _) Hw). }
  intros Hne. split; [by apply Hkeep |].
  intros [Hnil _]%printsPassed_nil. by apply Hkeep.
Qed.



Lemma entriesRead_prefix (pages : Pages) :
  ∃ k, entriesRead pages = take k (allEntries pages).
Proof.
  induction pages as [[entries|]|[[|e entries]|] rest [k IH]].
  - exists (length entries). cbn. by rewrite firstn_all.
  - by exists 0%nat.
  - by exists 0%nat.
  - exists (length (e :: entries) + k)%nat.
    cbn [entriesRead allEntries default]. rewrite IH.
    by rewrite take_app_add.
  - by exists 0%nat.
Qed.

Lemma entriesRead_filled (pages : Pages) :
  linkedPagesFilled pages = true → entriesRead pages = allEntries pages.
Proof.
  induction pages as [[entries|]|[[|e entries]|] rest IH]; try done.
  cbn. by intros ->%IH.
Qed.

(** Property X7.  [fetchAllMessages] decodes the entries of the pages in
    the order the mirror serves them, without a gap, up to some point;
    it decodes all of them when every page that links to a next one has
    entries. *)
Theorem pages_read_in_order (pages : Pages) :
  (∃ k, fetchAllMessages pages = mapM decodeMessage (take k (allEntries pages)))
  ∧ (linkedPagesFilled pages = true →
     fetchAllMessages pages = mapM decodeMessage (allEntries pages)).
Proof.
  rewrite fetchAllMessages_entries. split.
  - destruct (entriesRead_prefix pages) as [k ->]. by exists k.
  - by intros ->%entriesRead_filled.
Qed.

Lemma spoofed_decode (entries : list MirrorMsg) (s0 : Z) :
  (∀ i e, entries !! i = Some e →
          ∃ fields, message e = Parsed (JObj fields)
                    ∧ fields !! "seq" = Some (JNum (s0 + Z.of_nat i))
                    ∧ fields !! "consensusTs" = None) →
  ∃ messages,
    mapM decodeMessage entries = Some messages
    ∧ consecutiveFrom s0 messages
    ∧ Forall2 (fun e m => consensusTs m = consensus_timestamp e)
        entries messages.
Proof.
  revert s0. induction entries as [|e entries IH]; intros s0 H.
  - exists []. by repeat split.
  - destruct (H 0%nat e eq_refl) as (fields & He & Hseq & Hts).
    destruct (IH (s0 + 1)) as (messages & Hm & Hc & Ht).
    { intros i e' He'. destruct (H (S i) e' He') as (f & ? & Hs & ?).
      exists f. split; [done |]. split; [| done]. rewrite Hs. f_equal. f_equal. lia. }
    assert (∃ m, decodeMessage e = Some m ∧ seq m = s0
                 ∧ consensusTs m = consensus_timestamp e) as (m & Hd & Hs & Hc').
    { unfold decodeMessage, spreadSeq, spreadTs, own.
      rewrite He, Hseq, Hts. eexists. split; [reflexivity |]. cbn.
      split; [lia | done]. }
    exists (m :: messages). split; [| split].
    + change (mapM decodeMessage (e :: entries))
        with (y ← decodeMessage e; k ← mapM decodeMessage entries;
              mret (y :: k)).
      by rewrite Hd, Hm.
    + by apply consecutive_cons.
    + by constructor.
Qed.

Lemma consecutive_lookup (s0 : Z) (messages : list Message) (i : nat)
  (m : Message) :
  consecutiveFrom s0 messages → messages !! i = Some m →
  seq m = s0 + Z.of_nat i.
Proof.
  unfold consecutiveFrom. intros Hc Hm.
  assert (map seq messages !! i = Some (seq m)) as Hi
    by (by rewrite list_lookup_fmap, Hm).
  rewrite Hc, list_lookup_fmap in Hi.
  destruct (List.seq 0 (length messages) !! i) as [j|] eqn:Hj; [| done].
  apply lookup_seq in Hj as [-> _]. cbn in Hi. by simplify_eq.
Qed.

(** Property X6.  The sequence number that [verify] checks is the one
    the payload supplies, when it supplies one: a page whose payloads
    carry the property [seq] with the values [s0, s0 + 1, ...], all below
    [2 ^ 53] in absolute value, and no property [consensusTs], is fetched
    as a snapshot of one message for each entry, with these sequence
    numbers and the timestamps of the mirror node, and gets no gap issue,
    whatever sequence numbers the mirror node assigned. *)
Theorem payload_seq_hides_gaps (entries : list MirrorMsg) (s0 : Z) :
  (∀ i e, entries !! i = Some e →
          ∃ fields, message e = Parsed (JObj fields)
                    ∧ fields !! "seq" = Some (JNum (s0 + Z.of_nat i))
                    ∧ fields !! "consensusTs" = None) →
  - 2 ^ 53 < s0 → s0 + Z.of_nat (length entries) ≤ 2 ^ 53 →
  ∃ messages,
    fetchAllMessages (LastPage (Some entries)) = Some messages
    ∧ length messages = length entries
    ∧ map seq messages
      = map (fun i => s0 + Z.of_nat i) (List.seq 0 (length entries))
    ∧ Forall2 (fun e m => consensusTs m = consensus_timestamp e)
        entries messages
    ∧ Forall safeSeq messages
    ∧ gapIssues (verify messages) = [].
Proof.
  intros H Hlow Hhigh.
  destruct (spoofed_decode entries s0 H) as (messages & Hm & Hc & Ht).
  assert (length messages = length entries) as Hlen
    by (symmetry; by eapply Forall2_length).
  exists messages. rewrite fetchAllMessages_entries. cbn [entriesRead].
  refine (conj Hm (conj Hlen (conj _ (conj Ht (conj _ _))))).
  - rewrite <- Hlen. exact Hc.
  - apply Forall_lookup. intros i m Hi. unfold safeSeq.
    rewrite (consecutive_lookup _ _ _ _ Hc Hi).
    apply lookup_lt_Some in Hi. lia.
  - rewrite gapIssues_verify. by apply consecutive_no_gap with s0.
Qed.










Lemma issue_count_bounded_witness :
  [Samples.unparsed 1 Samples.t0] ≠ []
  ∧ (length (verify [Samples.unparsed 1 Samples.t0])
     ≤ 3 * length [Samples.unparsed 1 Samples.t0] - 1)%nat.
Proof.
  split; [discriminate |].
  apply (issue_count_bounded [Samples.unparsed 1 Samples.t0]). discriminate.
Defined.

Lemma issues_persist_witness :
  [Samples.creation 1 Samples.t0; Samples.action 3 Samples.t0] ≠ []
  ∧ Forall safeSeq ([Samples.creation 1 Samples.t0; Samples.action 3 Samples.t0]
                    ++ [Samples.action 4 Samples.t0])
  ∧ Forall asciiTs ([Samples.creation 1 Samples.t0; Samples.action 3 Samples.t0]
                    ++ [Samples.action 4 Samples.t0])
  ∧ failIssues (verify [Samples.creation 1 Samples.t0;
                        Samples.action 3 Samples.t0])
      `sublist_of`
    failIssues (verify ([Samples.creation 1 Samples.t0;
                         Samples.action 3 Samples.t0]
                        ++ [Samples.action 4 Samples.t0])).
Proof.
  assert (Forall safeSeq ([Samples.creation 1 Samples.t0;
                           Samples.action 3 Samples.t0]
                          ++ [Samples.action 4 Samples.t0])) as Hsafe
    by (by repeat constructor).
  assert (Forall asciiTs ([Samples.creation 1 Samples.t0;
                           Samples.action 3 Samples.t0]
                          ++ [Samples.action 4 Samples.t0])) as Hascii
    by (by repeat constructor).
  refine (conj _ (conj Hsafe (conj Hascii _))); [discriminate |].
  apply (issues_persist [Samples.creation 1 Samples.t0;
                         Samples.action 3 Samples.t0]
           [Samples.action 4 Samples.t0]); [discriminate | done | done].
Defined.

Lemma pages_read_in_order_witness :
  linkedPagesFilled (NextPage (Some tornPage) (LastPage (Some spoofedPage)))
  = true
  ∧ fetchAllMessages (NextPage (Some tornPage) (LastPage (Some spoofedPage)))
    = mapM decodeMessage (tornPage ++ spoofedPage).
Proof.
  split; [reflexivity |].
  apply (proj2 (pages_read_in_order
                  (NextPage (Some tornPage) (LastPage (Some spoofedPage))))).
  reflexivity.
Defined.

Lemma payload_seq_hides_gaps_witness :
  (∀ i e, spoofedPage !! i = Some e →
          ∃ fields, message e = Parsed (JObj fields)
                    ∧ fields !! "seq" = Some (JNum (1 + Z.of_nat i))
                    ∧ fields !! "consensusTs" = None)
  ∧ - 2 ^ 53 < 1
  ∧ 1 + Z.of_nat (length spoofedPage) ≤ 2 ^ 53
  ∧ ∃ messages,
      fetchAllMessages (LastPage (Some spoofedPage)) = Some messages
      ∧ length messages = length spoofedPage
      ∧ map seq messages
        = map (fun i => 1 + Z.of_nat i) (List.seq 0 (length spoofedPage))
      ∧ Forall2 (fun e m => consensusTs m = consensus_timestamp e)
          spoofedPage messages
      ∧ Forall safeSeq messages
      ∧ gapIssues (verify messages) = [].
Proof.
  assert (∀ i e, spoofedPage !! i = Some e →
          ∃ fields, message e = Parsed (JObj fields)
                    ∧ fields !! "seq" = Some (JNum (1 + Z.of_nat i))
                    ∧ fields !! "consensusTs" = None) as H.
  { intros [|[|i]] e He; cbn in He; [| | done];
      injection He as <-; eexists; (split; [reflexivity |]); by split. }
  assert (- 2 ^ 53 < 1) as Hlow by reflexivity.
  assert (1 + Z.of_nat (length spoofedPage) ≤ 2 ^ 53) as Hhigh
    by (by vm_compute).
  refine (conj H (conj Hlow (conj Hhigh _))).
  apply (payload_seq_hides_gaps spoofedPage 1 H Hlow Hhigh).
Defined.




End AuditFacts.

(** ** The attestation summary *)

Module SummaryFacts.

Import Verify Summary.

Lemma total_insert_fresh (counts : gmap string nat) (k : string) (n : nat) :
  counts !! k = None → total (<[k := n]> counts) = (n + total counts)%nat.
Proof.
  intros Hk. unfold total.
  apply (map_fold_insert_L (fun _ n acc => (n + acc)%nat)); [| done].
  intros. apply Nat.add_shuffle3.
Qed.

Lemma total_bump (counts : gmap string nat) (k : string) :
  total (<[k := (default 0 (counts !! k) + 1)%nat]> counts)
  = S (total counts).
Proof.
  destruct (counts !! k) as [n|] eqn:Hk; cbn [default id].
  - rewrite <- (insert_delete_id counts k n Hk) at 2.
    rewrite <- insert_delete_eq.
    rewrite !total_insert_fresh by apply lookup_delete_eq.
    unfold id. lia.
  - rewrite total_insert_fresh by done. lia.
Qed.

Lemma countTypes_from (messages : list Message) (init counts : gmap string nat) :
  countTypes messages init = Some counts →
  total counts = (total init + length messages)%nat
  ∧ ∀ k, default 0%nat (counts !! k)
         = (default 0 (init !! k)
            + length (List.filter (fun m => String.eqb (typeKey m) k) messages))%nat.
Proof.
  revert init. induction messages as [|m messages IH]; intros init H.
  - cbn in H. simplify_eq. split; [cbn; lia |]. intros k. cbn. lia.
  - cbn [countTypes] in H. unfold countType in H.
    destruct (ToStringThrows (type m)); [done |].
    case_bool_decide; [done |]. cbn in H.
    destruct (IH _ H) as [Htotal Hkeys]. split.
    + rewrite Htotal, total_bump. cbn [length]. lia.
    + intros k. rewrite Hkeys. cbn [List.filter].
      destruct (String.eqb_spec (typeKey m) k) as [->|Hne].
      * rewrite lookup_insert_eq. cbn. lia.
      * rewrite lookup_insert_ne by done. lia.
Qed.

Lemma countTypes_counted (messages : list Message) (init : gmap string nat) :
  Forall (fun m => counted m = true) messages →
  is_Some (countTypes messages init).
Proof.
  intros H. revert init. induction H as [|m messages Hm _ IH]; intros init.
  - by eexists.
  - cbn [countTypes]. unfold countType. unfold counted in Hm.
    destruct (ToStringThrows (type m)); [done |].
    destruct (bool_decide _); [by rewrite andb_false_r in Hm |]. cbn. apply IH.
Qed.

(** Property X9.  When the type of every message has a property key, one
    that is no name of [Object.prototype], and holds no number from
    [2 ^ 53] on, the loop of the type summary
    ends with counts that add up to the number of messages, and the count
    under each key is the number of messages with that key, those
    without a truthy type counting under [unknown]. *)
Theorem type_counts_add_up (messages : list Message) :
  Forall (fun m => counted m = true) messages →
  ∃ counts,
    countTypes messages ∅ = Some counts
    ∧ total counts = length messages
    ∧ ∀ k, default 0%nat (counts !! k)
           = length (List.filter (fun m => String.eqb (typeKey m) k) messages).
Proof.
  intros Hok. destruct (countTypes_counted messages ∅ Hok) as [counts H].
  exists counts. split; [done |].
  destruct (countTypes_from _ _ _ H) as [Htotal Hkeys].
  split; [by rewrite Htotal |]. intros k. rewrite Hkeys. by rewrite lookup_empty.
Qed.

Lemma type_counts_add_up_witness :
  Forall (fun m => counted m = true)
    [Samples.creation 1 Samples.t0; Samples.action 2 Samples.t0;
     Samples.unparsed 3 Samples.t0; Samples.action 4 Samples.t0]
  ∧ ∃ counts,
      countTypes [Samples.creation 1 Samples.t0; Samples.action 2 Samples.t0;
                  Samples.unparsed 3 Samples.t0; Samples.action 4 Samples.t0] ∅
      = Some counts
      ∧ total counts = 4%nat
      ∧ ∀ k, default 0%nat (counts !! k)
             = length (List.filter (fun m => String.eqb (typeKey m) k)
                         [Samples.creation 1 Samples.t0;
                          Samples.action 2 Samples.t0;
                          Samples.unparsed 3 Samples.t0;
                          Samples.action 4 Samples.t0]).
Proof.
  assert (Forall (fun m => counted m = true)
            [Samples.creation 1 Samples.t0; Samples.action 2 Samples.t0;
             Samples.unparsed 3 Samples.t0; Samples.action 4 Samples.t0]) as H.
  { by repeat constructor. }
  split; [exact H |]. exact (type_counts_add_up _ H).
Defined.

(** The counts of that snapshot, and a type that has no property key. *)
Example countTypes_sample :
  countTypes [Samples.creation 1 Samples.t0; Samples.action 2 Samples.t0;
              Samples.unparsed 3 Samples.t0; Samples.action 4 Samples.t0] ∅
  = Some (<["agent.create" := 1%nat]>
          (<["action" := 2%nat]> {["unknown" := 1%nat]}))
  ∧ countTypes [withType (JObj {["toString" := JNum 1]})
                  (Samples.action 1 Samples.t0)] ∅ = None.
Proof. by vm_compute. Qed.

End SummaryFacts.

(** ** The command line *)

Module CliFacts.
Import Cli.

Lemma indexOf_absent (args : list string) (x : string) :
  x ∉ args → indexOf args x = None.
Proof.
  induction args as [|a args IH]; [done |].
  intros [Hne Hin]%not_elem_of_cons. cbn.
  destruct (String.eqb_spec a x) as [->|_]; [done |]. by rewrite IH.
Qed.

Lemma indexOf_first (before after : list string) (x : string) :
  x ∉ before → indexOf (before ++ x :: after) x = Some (length before).
Proof.
  induction before as [|a before IH]; cbn.
  - intros _. by rewrite String.eqb_refl.
  - intros [Hne Hin]%not_elem_of_cons.
    destruct (String.eqb_spec a x) as [->|_]; [done |]. by rewrite IH.
Qed.

(** Property X10.  [getArg] returns the argument that follows the first
    occurrence of the flag; it returns the default when the first
    occurrence is the last argument and when the flag does not occur. *)
Theorem getArg_first_flag (name : string) (defaultVal : option string)
  (before after : list string) (value : string) :
  ("--" +:+ name) ∉ before →
  getArg (before ++ ("--" +:+ name) :: value :: after) name defaultVal
  = Some value
  ∧ getArg (before ++ [("--" +:+ name)]) name defaultVal = defaultVal
  ∧ getArg before name defaultVal = defaultVal.
Proof.
  intros Hbefore. unfold getArg.
  rewrite !indexOf_first, indexOf_absent by done.
  split; [| split; [| done]].
  - rewrite lookup_app_r by lia.
    replace (length before + 1 - length before)%nat with 1%nat by lia.
    destruct (Nat.leb_spec (length (before ++ ("--" +:+ name) :: value :: after))
                (length before + 1)) as [Hle|_]; [| done].
    rewrite length_app in Hle. cbn in Hle. lia.
  - destruct (Nat.leb_spec (length (before ++ [("--" +:+ name)]))
                (length before + 1)) as [_|Hlt]; [done |].
    rewrite length_app in Hlt. cbn in Hlt. lia.
Qed.

Lemma getArg_first_flag_witness :
  (("--" +:+ "network") ∉ ["--topic"; "0.0.12345"])
  ∧ getArg (["--topic"; "0.0.12345"]
              ++ (("--" +:+ "network") :: "mainnet" :: ["--network"; "testnet"]))
      "network" (Some "testnet")
    = Some "mainnet".
Proof.
  assert (("--" +:+ "network") ∉ ["--topic"; "0.0.12345"]) as Hbefore.
  { rewrite !not_elem_of_cons. by repeat split; [| | apply not_elem_of_nil]. }
  split; [exact Hbefore |].
  exact (proj1 (getArg_first_flag "network" (Some "testnet")
                  ["--topic"; "0.0.12345"] ["--network"; "testnet"] "mainnet"
                  Hbefore)).
Defined.

End CliFacts.

(** ** More on the producer *)

Module ProducerFacts.
Import Verify Soul SoulReading SoulFacts AuditFacts.

(** Property X11.  [getLastSoulHash] returns [null] when no message of
    the answer is a [soul.verify] or an [agent.create] that parses;
    otherwise the newest such message alone decides, by its
    [data.soul_hash] or [null] when it has none that is truthy, whatever
    the older messages hold. *)
Theorem newest_attestation_decides (skipped rest : list Payload)
  (fields : gmap string JsVal) :
  Forall (fun p => qualifies p = false) skipped →
  getLastSoulHash (Some (Some skipped)) = JNull
  ∧ (qualifies (Parsed (JObj fields)) = true →
     getLastSoulHash (Some (Some (skipped ++ Parsed (JObj fields) :: rest)))
     = orNull (optProp (default JUndef (fields !! "data")) "soul_hash")).
Proof.
  intros Hskipped. split.
  - cbn. rewrite <- (app_nil_r skipped). by rewrite scanMessages_skips.
  - intros Hq. cbn [getLastSoulHash]. rewrite scanMessages_skips by done.
    cbn in Hq |- *. unfold prop. by rewrite Hq.
Qed.

Section Producer.

Variable sha256hex : string → string.
Variable readFileSync : string → option string.
Variable byteLength : Attestation → nat.
Variable topicId : string.

Lemma hashFiles_nil (names : list string) :
  hashFiles sha256hex readFileSync names = []
  ↔ Forall (fun name => readFileSync name = None) names.
Proof.
  unfold hashFiles, hashFile.
  induction names as [|name names IH]; cbn.
  - split; [constructor | done].
  - destruct (readFileSync name) eqn:Hname; cbn.
    + split; [done |]. intros H. inversion H; congruence.
    + rewrite IH. split; [by constructor |]. intros H. by inversion H.
Qed.

(** Property X13.  [main] exits without an attestation if and only if
    none of the four identity files can be read, or [getLastSoulHash]
    returns a truthy value whose report throws: a number, a boolean or an
    object, which have no [slice], or an array with an element among its
    first 20 that cannot be rendered. *)
Theorem main_exits_iff_no_file_or_hash_unprintable (mirror : Mirror) :
  main sha256hex readFileSync byteLength topicId mirror = None
  ↔ Forall (fun name => readFileSync name = None)
      ["SOUL.md"; "AGENTS.md"; "IDENTITY.md"; "USER.md"]
    ∨ (truthy (getLastSoulHash mirror) = true
       ∧ match getLastSoulHash mirror with
         | JStr _ => False
         | JArr l => existsb ToStringThrows (take 20 l) = true
         | _ => True
         end).
Proof.
  rewrite <- (hashFiles_nil identityFiles). unfold main.
  destruct (hashFiles sha256hex readFileSync identityFiles) as [|file files].
  - split; [by left | done].
  - cbn [length Nat.eqb].
    destruct (truthy (getLastSoulHash mirror)) eqn:Hlast; cbn [andb].
    + destruct (getLastSoulHash mirror) as [| | | | |l|]; cbn [lastHashThrows];
        try (split; [by right | done]).
      * split; [by destruct (1024 <? _)%nat | by intros [|[_ []]]].
      * destruct (existsb ToStringThrows (take 20 l)).
        -- split; [by right | done].
        -- split; [by destruct (1024 <? _)%nat | by intros [|[_ ?]]].
    + split; [by destruct (1024 <? _)%nat | by intros [|[? _]]].
Qed.

(** Property X12.  When the mirror cannot be reached, answers without
    messages, or answers with no [soul.verify] or [agent.create] among
    the messages, the attestation that [main] submits declares
    [match: true]. *)
Theorem silent_mirror_attests_match (mirror : Mirror) :
  (mirror = None ∨ mirror = Some None
   ∨ ∃ messages, mirror = Some (Some messages)
                 ∧ Forall (fun p => qualifies p = false) messages) →
  hashFiles sha256hex readFileSync identityFiles ≠ [] →
  ∃ attestation,
    main sha256hex readFileSync byteLength topicId mirror = Some attestation
    ∧ match_ attestation = true.
Proof.
  intros Hmirror Hfiles.
  assert (getLastSoulHash mirror = JNull) as Hlast.
  { destruct Hmirror as [-> | [-> | (messages & -> & Hm)]]; [done | done |].
    cbn. rewrite <- (app_nil_r messages). by rewrite scanMessages_skips. }
  unfold main. rewrite Hlast.
  destruct (hashFiles sha256hex readFileSync identityFiles); [done |].
  cbn [length Nat.eqb truthy andb].
  destruct (1024 <? _)%nat; eexists; by split.
Qed.

Instance leq_trans : Transitive leq.
Proof. intros a b c. apply leb_trans. Qed.

Instance leq_antisym : AntiSymm (=) leq.
Proof. intros a b Hab Hba. by apply String.leb_antisym. Qed.

Lemma insertSorted_perm (x : string) (l : list string) :
  insertSorted x l ≡ₚ x :: l.
Proof.
  induction l as [|y l IH]; [done |]. cbn.
  destruct (String.leb x y); [done |]. rewrite IH. apply Permutation_swap.
Qed.

Lemma insertSorted_sorted (x : string) (l : list string) :
  Sorted leq l → Sorted leq (insertSorted x l).
Proof.
  induction 1 as [|y l Hl IH Hy]; cbn.
  - by repeat constructor.
  - destruct (String.leb x y) eqn:Hxy.
    + constructor; [by constructor |]. by constructor.
    + constructor; [done |].
      assert (leq y x) as Hyx.
      { destruct (String.leb_total x y) as [H|H]; [congruence | done]. }
      destruct Hy as [|z l Hyz]; cbn; [by constructor |].
      destruct (String.leb x z); by constructor.
Qed.

Lemma sort_perm (l : list string) : sort l ≡ₚ l.
Proof.
  induction l as [|x l IH]; [done |].
  cbn. by rewrite insertSorted_perm, IH.
Qed.

Lemma sort_sorted (l : list string) : Sorted leq (sort l).
Proof.
  induction l as [|x l IH]; [constructor |].
  cbn. by apply insertSorted_sorted.
Qed.

Lemma sort_permutation (l k : list string) : l ≡ₚ k → sort l = sort k.
Proof.
  intros H. apply (Sorted_unique leq); [apply sort_sorted.. |].
  by rewrite !sort_perm.
Qed.

(** Property X14.  The composite hash depends on the hashes of the
    identity files as a multiset only: which file has which hash, and
    the order of the files, do not change it. *)
Theorem compositeHash_ignores_file_order (files1 files2 : list (string * string)) :
  map snd files1 ≡ₚ map snd files2 →
  compositeHash sha256hex files1 = compositeHash sha256hex files2.
Proof. intros H. unfold compositeHash. by rewrite (sort_permutation _ _ H). Qed.

End Producer.
Lemma newest_attestation_decides_witness :
  Forall (fun p => qualifies p = false) (take 2 latestMessages)
  ∧ getLastSoulHash (Some (Some latestMessages)) = JStr "sha256:aa".
Proof.
  assert (Forall (fun p => qualifies p = false) (take 2 latestMessages))
    as Hskipped by (by repeat constructor).
  split; [exact Hskipped |].
  exact (proj2 (newest_attestation_decides (take 2 latestMessages)
                  (drop 3 latestMessages)
                  (<["type" := JStr "soul.verify"]>
                   {["data" := JObj {["soul_hash" := JStr "sha256:aa"]}]})
                  Hskipped) eq_refl).
Defined.

Lemma silent_mirror_attests_match_witness :
  hashFiles Samples.toyDigest Samples.oneFile identityFiles ≠ []
  ∧ ∃ attestation,
      main Samples.toyDigest Samples.oneFile (fun _ => 0%nat) "0.0.1" None
      = Some attestation
      ∧ match_ attestation = true.
Proof.
  split; [discriminate |].
  apply (silent_mirror_attests_match Samples.toyDigest Samples.oneFile
           (fun _ => 0%nat) "0.0.1" None); [by left | discriminate].
Defined.

Lemma compositeHash_ignores_file_order_witness :
  map snd [("SOUL.md", "sha256:aa"); ("AGENTS.md", "sha256:bb")]
    ≡ₚ map snd [("SOUL.md", "sha256:bb"); ("AGENTS.md", "sha256:aa")]
  ∧ compositeHash Samples.toyDigest
      [("SOUL.md", "sha256:aa"); ("AGENTS.md", "sha256:bb")]
    = compositeHash Samples.toyDigest
        [("SOUL.md", "sha256:bb"); ("AGENTS.md", "sha256:aa")].
Proof.
  split; [apply perm_swap |].
  apply (compositeHash_ignores_file_order Samples.toyDigest). apply perm_swap.
Defined.

End ProducerFacts.
